(** * dailyexpense: the login form and the expense row, embedded in Rocq

    The development follows the two source files of the repository:

    - [src/component/login/Login.tsx]: the field validator [validateForm],
      the submit handler [handleSubmit], the federated sign-in
      [signInGoogle] and the session guard run by [useEffect];
    - [src/component/addexpense/Component/AddExpense.tsx]: the change
      handler of the participant multi-select.

    Host facilities the components call (strings, regular expressions,
    [Date], cookies, the router, the remote store) live in [Module JS] and
    in the primitive operations of the handler monad. *)

From Stdlib Require Import ZArith NArith List String Ascii Bool Lia.
Import ListNotations.

(* ================================================================== *)
(** * Host language values                                             *)
(* ================================================================== *)

Module JS.

(** A JavaScript string is a sequence of UTF-16 code units. *)
Definition code_unit := N.
Definition jsstring := list code_unit.

(** A string literal of the source, as a sequence of code units. *)
Definition lit (s : string) : jsstring :=
  map N_of_ascii (list_ascii_of_string s).

(** Equality of strings, code unit by code unit. *)
Fixpoint eqb (a b : jsstring) : bool :=
  match a, b with
  | [], [] => true
  | x :: a', y :: b' => N.eqb x y && eqb a' b'
  | _, _ => false
  end.

(** [s.length] *)
Definition length (s : jsstring) : Z := Z.of_nat (List.length s).

(** ToBoolean on a string: only the empty string is falsy. *)
Definition truthy_string (s : jsstring) : bool :=
  match s with
  | [] => false
  | _ :: _ => true
  end.

(** White space and line terminators, the code units [String.prototype.trim]
    strips: TAB, LF, VT, FF, CR, SP, NBSP, U+1680, U+2000..U+200A, U+2028,
    U+2029, U+202F, U+205F, U+3000 and U+FEFF. *)
Definition isWhiteSpace (c : code_unit) : bool :=
  ((9 <=? c) && (c <=? 13)
   || (c =? 32) || (c =? 160) || (c =? 5760)
   || (8192 <=? c) && (c <=? 8202)
   || (c =? 8232) || (c =? 8233) || (c =? 8239) || (c =? 8287)
   || (c =? 12288) || (c =? 65279))%N.

Fixpoint trimStart (s : jsstring) : jsstring :=
  match s with
  | [] => []
  | c :: s' => if isWhiteSpace c then trimStart s' else s
  end.

Definition trimEnd (s : jsstring) : jsstring := rev (trimStart (rev s)).

(** [s.trim()] *)
Definition trim (s : jsstring) : jsstring := trimEnd (trimStart s).

(** The class [\d]: the ten ASCII digits. *)
Definition isDigit (c : code_unit) : bool := ((48 <=? c) && (c <=? 57))%N.

(** ** Regular expressions

    The fragment the source uses: the assertions [^] and [$] (no multiline
    flag, so they hold at the two ends of the input only) and a character
    class with an exact repetition count, [\d{n}]. *)
Inductive regex_node : Type :=
| AssertStart
| AssertEnd
| DigitTimes (n : nat).

Definition regex := list regex_node.

(** Consume exactly [n] digits, giving what follows them. *)
Fixpoint match_digits (n : nat) (s : jsstring) : option jsstring :=
  match n with
  | O => Some s
  | S n' =>
      match s with
      | [] => None
      | c :: s' => if isDigit c then match_digits n' s' else None
      end
  end.

(** Match the pattern with the input cursor at index [pos], [s] being the
    input from [pos] on. *)
Fixpoint match_here (r : regex) (pos : nat) (s : jsstring) : bool :=
  match r with
  | [] => true
  | AssertStart :: r' => Nat.eqb pos 0 && match_here r' pos s
  | AssertEnd :: r' =>
      match s with
      | [] => match_here r' pos s
      | _ :: _ => false
      end
  | DigitTimes n :: r' =>
      match match_digits n s with
      | Some rest => match_here r' (pos + n) rest
      | None => false
      end
  end.

(** The search loop of [RegExp.prototype.test] without the global flag: try
    every start index from [pos] to the end of the input. *)
Fixpoint search_from (r : regex) (pos : nat) (s : jsstring) : bool :=
  match_here r pos s
  || match s with
     | [] => false
     | _ :: s' => search_from r (S pos) s'
     end.

(** [r.test(s)] *)
Definition test (r : regex) (s : jsstring) : bool := search_from r 0 s.

(** ** [String.prototype.split] with a one-code-unit separator

    [split_go sep cur s] scans [s] with [cur] the piece read so far, in
    reverse. The empty string splits into one empty piece. *)
Fixpoint split_go (sep : code_unit) (cur : jsstring) (s : jsstring)
  : list jsstring :=
  match s with
  | [] => [rev cur]
  | c :: s' =>
      if N.eqb c sep then rev cur :: split_go sep [] s'
      else split_go sep (c :: cur) s'
  end.

Definition split (s : jsstring) (sep : code_unit) : list jsstring :=
  split_go sep [] s.

(** [pieces.join(sep)], the inverse reading of a split. *)
Fixpoint join (sep : code_unit) (pieces : list jsstring) : jsstring :=
  match pieces with
  | [] => []
  | [p] => p
  | p :: ps => p ++ sep :: join sep ps
  end.

(** ** Values a dynamically typed read can give back

    [cookies.get] is typed [any]; numbers are kept to the integers, which
    is all that truthiness needs to tell [0] from the rest. *)
Inductive value : Type :=
| VUndefined
| VNull
| VBoolean (b : bool)
| VNumber (z : Z)
| VString (s : jsstring)
| VObject.

(** ToBoolean *)
Definition truthy (v : value) : bool :=
  match v with
  | VUndefined | VNull => false
  | VBoolean b => b
  | VNumber z => negb (Z.eqb z 0)
  | VString s => truthy_string s
  | VObject => true
  end.

(** ** Date arithmetic (ECMA-262, Date objects)

    A time value is a number of milliseconds since the epoch; the values
    in reach are integers below 2^53, so [Z] holds them exactly. *)
Local Open Scope Z_scope.

Definition msPerDay : Z := 86400000.
Definition Day (t : Z) : Z := t / msPerDay.
Definition TimeWithinDay (t : Z) : Z := t mod msPerDay.

Definition DayFromYear (y : Z) : Z :=
  365 * (y - 1970) + (y - 1969) / 4 - (y - 1901) / 100 + (y - 1601) / 400.

Definition isLeapYear (y : Z) : bool :=
  (y mod 4 =? 0) && (negb (y mod 100 =? 0) || (y mod 400 =? 0)).

(** Walk up from a year that starts on or before day [d] to the last such
    year. *)
Fixpoint year_up (fuel : nat) (y d : Z) : Z :=
  match fuel with
  | O => y
  | S fuel' => if DayFromYear (y + 1) <=? d then year_up fuel' (y + 1) d else y
  end.

(** The largest year whose first day is on or before the day of [t]. *)
Definition YearFromTime (t : Z) : Z :=
  let d := Day t in
  let y0 := if 0 <=? d then 1970 + d / 366 else 1970 + d / 365 - 1 in
  year_up (Z.to_nat (Z.abs d / 100000 + 3)) y0 d.

Definition DayWithinYear (t : Z) : Z := Day t - DayFromYear (YearFromTime t).

(** Day number, within its year, of the first day of month [m] (0..11). *)
Definition monthStart (leap : bool) (m : Z) : Z :=
  let l := if leap then 1 else 0 in
  match m with
  | 0 => 0
  | 1 => 31
  | 2 => 59 + l
  | 3 => 90 + l
  | 4 => 120 + l
  | 5 => 151 + l
  | 6 => 181 + l
  | 7 => 212 + l
  | 8 => 243 + l
  | 9 => 273 + l
  | 10 => 304 + l
  | _ => 334 + l
  end.

Definition MonthFromTime (t : Z) : Z :=
  let leap := isLeapYear (YearFromTime t) in
  let d := DayWithinYear t in
  if d <? monthStart leap 1 then 0
  else if d <? monthStart leap 2 then 1
  else if d <? monthStart leap 3 then 2
  else if d <? monthStart leap 4 then 3
  else if d <? monthStart leap 5 then 4
  else if d <? monthStart leap 6 then 5
  else if d <? monthStart leap 7 then 6
  else if d <? monthStart leap 8 then 7
  else if d <? monthStart leap 9 then 8
  else if d <? monthStart leap 10 then 9
  else if d <? monthStart leap 11 then 10
  else 11.

Definition DateFromTime (t : Z) : Z :=
  DayWithinYear t - monthStart (isLeapYear (YearFromTime t)) (MonthFromTime t) + 1.

(** MakeDay: the day number of day-of-month [date] in ([year], [month]);
    a [date] past the end of the month runs on into the next ones. *)
Definition MakeDay (year month date : Z) : Z :=
  let ym := year + month / 12 in
  let mn := month mod 12 in
  DayFromYear ym + monthStart (isLeapYear ym) mn + date - 1.

Definition MakeDate (day time : Z) : Z := day * msPerDay + time.

(** A [Date] holds a time value, or NaN when its time is out of range
    (an invalid date). *)
Definition Date := option Z.

Definition TimeClip (t : Z) : Date :=
  if 8640000000000000 <? Z.abs t then None else Some t.

(** The time zone of the host: the offset of local time at a UTC time, and
    the offset to take off a local time to get back to UTC. *)
Record TimeZone : Type := {
  offsetAtUTC : Z -> Z;
  offsetAtLocal : Z -> Z
}.

Definition LocalTime (tz : TimeZone) (t : Z) : Z := t + offsetAtUTC tz t.
Definition UTC (tz : TimeZone) (t : Z) : Z := t - offsetAtLocal tz t.

(** [d.getDate()] on a valid date. *)
Definition getDate (tz : TimeZone) (t : Z) : Z := DateFromTime (LocalTime tz t).

(** [d.setDate(dt)] on a valid date: the new time value of [d]. *)
Definition setDate (tz : TimeZone) (t : Z) (dt : Z) : Date :=
  let lt := LocalTime tz t in
  let newDate :=
    MakeDate (MakeDay (YearFromTime lt) (MonthFromTime lt) dt) (TimeWithinDay lt) in
  TimeClip (UTC tz newDate).

(** [a.indexOf(x)] on an array of strings: the index of the first element
    strictly equal to [x], or -1. *)
Fixpoint indexOf_from (a : list jsstring) (x : jsstring) (k : Z) : Z :=
  match a with
  | [] => -1
  | y :: a' => if eqb y x then k else indexOf_from a' x (k + 1)
  end.

Definition indexOf (a : list jsstring) (x : jsstring) : Z := indexOf_from a x 0.

(** A thrown value of the kind the remote calls reject with: an error
    object, which always has a string conversion, recorded here. Values
    whose conversion to a string itself throws are not covered. *)
Record exn : Type := { toString : jsstring }.

(** The outcome of an awaited promise. *)
Inductive settled (A : Type) : Type :=
| Fulfilled (a : A)
| Rejected (e : exn).
Arguments Fulfilled {A} a.
Arguments Rejected {A} e.

End JS.

(* ================================================================== *)
(** * The login form: [src/component/login/Login.tsx]                  *)
(* ================================================================== *)

Module Login.
Import JS.
Local Open Scope Z_scope.

Record FormValues : Type := {
  name : jsstring;
  mobileNumber : jsstring;
  password : jsstring
}.

(** The [Errors] interface: the same three keys, each optional. *)
Module Errors.
Record t : Type := {
  name : option jsstring;
  mobileNumber : option jsstring;
  password : option jsstring
}.

(** The object literal [{}]. *)
Definition empty : t :=
  {| name := None; mobileNumber := None; password := None |}.

(** The assignments [errors.name = m], [errors.mobileNumber = m] and
    [errors.password = m]. *)
Definition set_name (e : t) (m : jsstring) : t :=
  {| name := Some m; mobileNumber := mobileNumber e; password := password e |}.
Definition set_mobileNumber (e : t) (m : jsstring) : t :=
  {| name := name e; mobileNumber := Some m; password := password e |}.
Definition set_password (e : t) (m : jsstring) : t :=
  {| name := name e; mobileNumber := mobileNumber e; password := Some m |}.

Definition key_if_present (k : string) (v : option jsstring) : list jsstring :=
  match v with
  | Some _ => [lit k]
  | None => []
  end.

(** [Object.keys(e)]: the keys that are set. *)
Definition keys (e : t) : list jsstring :=
  key_if_present "name" (name e)
  ++ key_if_present "mobileNumber" (mobileNumber e)
  ++ key_if_present "password" (password e).
End Errors.

(** The pattern [/^\d{10}$/]. *)
Definition mobileNumber_pattern : regex := [AssertStart; DigitTimes 10; AssertEnd].

(** [validateForm], lines 39-59. The body reads [formValues] and assigns
    to its local object [errors] only, so it is a function from the one to
    the other; [errors] is threaded through the three statements. *)
Definition validateForm (formValues : FormValues) : Errors.t :=
  let errors := Errors.empty in
  let errors :=
    if negb (truthy_string (trim (name formValues)))
    then Errors.set_name errors (lit "Name is required")
    else errors in
  let errors :=
    if negb (truthy_string (trim (mobileNumber formValues)))
    then Errors.set_mobileNumber errors (lit "Mobile number is required")
    else if negb (test mobileNumber_pattern (mobileNumber formValues))
    then Errors.set_mobileNumber errors (lit "Mobile number must be 10 digits")
    else errors in
  let errors :=
    if negb (truthy_string (trim (password formValues)))
    then Errors.set_password errors (lit "Password is required")
    else if JS.length (password formValues) <? 6
    then Errors.set_password errors (lit "Password must be at least 6 characters")
    else errors in
  errors.

(** ** The component's state and its surroundings *)

(** The three [useState] cells. *)
Record State : Type := {
  formValues : FormValues;
  errors : Errors.t;
  loader : bool
}.

(** A cookie as [cookies.get] reads it back, with the expiry it was set
    with when this page set it. *)
Record Cookie : Type := {
  value : JS.value;
  expires : option Date
}.

Inductive LogArg : Type :=
| LogString (s : jsstring)
| LogError (e : exn).

(** What a handler does to the outside, in the order it does it. *)
Inductive Event : Type :=
| PreventDefault
| SetErrors (e : Errors.t)
| SetLoader (b : bool)
| SetFormValues (v : FormValues)
| AddDoc (collection : jsstring) (data : FormValues)
| SignInWithPopup
| CookiesSet (name value : jsstring) (expires : Date)
| RouterPush (url : jsstring)
| ConsoleError (args : list LogArg)
| Alert (message : jsstring).

Record World : Type := {
  state : State;
  cookieJar : list (jsstring * Cookie);
  firestore : list (jsstring * FormValues);
  trace : list Event
}.

Record User : Type := { refreshToken : jsstring }.
Record UserCredential : Type := { user : User }.

(** What the surroundings answer while a handler runs: the time zone and
    the clock [new Date()] reads, and how the two awaited calls settle. *)
Record Host : Type := {
  timeZone : TimeZone;
  clock : Z;
  addDoc_settles : jsstring -> FormValues -> settled unit;
  signInWithPopup_settles : settled UserCredential
}.

(** ** The handler monad: state, a host to ask, and exceptions *)

Inductive Result (A : Type) : Type :=
| Returned (a : A)
| Threw (e : exn).
Arguments Returned {A} a.
Arguments Threw {A} e.

Definition M (A : Type) : Type := Host -> World -> Result A * World.

Definition ret {A} (a : A) : M A := fun _ w => (Returned a, w).

Definition bind {A B} (c : M A) (k : A -> M B) : M B :=
  fun h w =>
    match c h w with
    | (Returned a, w') => k a h w'
    | (Threw e, w') => (Threw e, w')
    end.

Definition throw {A} (e : exn) : M A := fun _ w => (Threw e, w).

Notation "x <- c ;; k" := (bind c (fun x => k))
  (at level 61, c at next level, right associativity).
Notation "c ;; k" := (bind c (fun _ => k))
  (at level 61, right associativity).

(** [try { body } catch (error) { handler error }] *)
Definition try_catch {A} (body : M A) (handler : exn -> M A) : M A :=
  fun h w =>
    match body h w with
    | (Returned a, w') => (Returned a, w')
    | (Threw e, w') => handler e h w'
    end.

(** [try { body } finally { final }]: [final] runs however [body] ends, and
    an exception of its own replaces the outcome. *)
Definition try_finally {A} (body : M A) (final : M unit) : M A :=
  fun h w =>
    match body h w with
    | (r, w') =>
        match final h w' with
        | (Returned _, w'') => (r, w'')
        | (Threw e, w'') => (Threw e, w'')
        end
    end.

Definition try_catch_finally {A}
  (body : M A) (handler : exn -> M A) (final : M unit) : M A :=
  try_finally (try_catch body handler) final.

(** The world after a run, and the events the run added. *)
Definition exec {A} (c : M A) (h : Host) (w : World) : World := snd (c h w).

(** ** Primitive operations

    Only the two awaited calls can throw; the state setters, the cookie
    write, the router and the dialogs are taken to return normally. A
    state setter is modelled by its effect on the next render's state. *)

Definition emit (e : Event) : M unit :=
  fun _ w =>
    (Returned tt,
     {| state := state w; cookieJar := cookieJar w;
        firestore := firestore w; trace := trace w ++ [e] |}).

Definition modify_state (f : State -> State) : M unit :=
  fun _ w =>
    (Returned tt,
     {| state := f (state w); cookieJar := cookieJar w;
        firestore := firestore w; trace := trace w |}).

(** [event.preventDefault()] *)
Definition preventDefault : M unit := emit PreventDefault.

(** The three state setters. *)
Definition setErrors (e : Errors.t) : M unit :=
  emit (SetErrors e) ;;
  modify_state (fun s =>
    {| formValues := formValues s; errors := e; loader := loader s |}).

Definition setLoader (b : bool) : M unit :=
  emit (SetLoader b) ;;
  modify_state (fun s =>
    {| formValues := formValues s; errors := errors s; loader := b |}).

Definition setFormValues (v : FormValues) : M unit :=
  emit (SetFormValues v) ;;
  modify_state (fun s =>
    {| formValues := v; errors := errors s; loader := loader s |}).

(** The setter called with an updater function, which receives the latest
    state. *)
Definition setFormValues_with (f : FormValues -> FormValues) : M unit :=
  fun h w => setFormValues (f (formValues (state w))) h w.

(** [await addDoc(collection(db, c), data)]: the host says how the call
    settles; a fulfilled call has appended the document. *)
Definition addDoc (c : jsstring) (data : FormValues) : M unit :=
  emit (AddDoc c data) ;;
  fun h w =>
    match addDoc_settles h c data with
    | Fulfilled _ =>
        (Returned tt,
         {| state := state w; cookieJar := cookieJar w;
            firestore := firestore w ++ [(c, data)]; trace := trace w |})
    | Rejected e => (Threw e, w)
    end.

(** [await signInWithPopup(auth, provider)] *)
Definition signInWithPopup : M UserCredential :=
  emit SignInWithPopup ;;
  fun h w =>
    match signInWithPopup_settles h with
    | Fulfilled r => (Returned r, w)
    | Rejected e => (Threw e, w)
    end.

(** [new Date()] *)
Definition new_Date : M Date := fun h w => (Returned (TimeClip (clock h)), w).

(** [d.getDate()]: NaN on an invalid date. *)
Definition Date_getDate (d : Date) : M (option Z) :=
  fun h w => (Returned (option_map (getDate (timeZone h)) d), w).

(** [d.setDate(dt)]: the date [d] becomes. *)
Definition Date_setDate (d : Date) (dt : option Z) : M Date :=
  fun h w =>
    (Returned
       match d, dt with
       | Some t, Some v => setDate (timeZone h) t v
       | _, _ => None
       end,
     w).

(** Number addition, NaN being [None]. *)
Definition plus (a : option Z) (b : Z) : option Z := option_map (fun x => x + b) a.

Fixpoint jar_set (k : jsstring) (c : Cookie) (jar : list (jsstring * Cookie))
  : list (jsstring * Cookie) :=
  match jar with
  | [] => [(k, c)]
  | (k', c') :: jar' =>
      if JS.eqb k k' then (k, c) :: jar' else (k', c') :: jar_set k c jar'
  end.

Fixpoint jar_get (k : jsstring) (jar : list (jsstring * Cookie)) : option Cookie :=
  match jar with
  | [] => None
  | (k', c) :: jar' => if JS.eqb k k' then Some c else jar_get k jar'
  end.

(** [cookies.set(k, v, { expires: d })]. The jar keeps the value as a later
    [cookies.get] reads it back, taken to be the string written: the
    cookie library does so for a string it cannot take for JSON text, such
    as the placeholder token, and for the empty string. The call is taken
    to return normally, as it does for a valid expiry. *)
Definition cookies_set (k v : jsstring) (d : Date) : M unit :=
  emit (CookiesSet k v d) ;;
  fun _ w =>
    (Returned tt,
     {| state := state w;
        cookieJar := jar_set k {| value := VString v; expires := Some d |} (cookieJar w);
        firestore := firestore w; trace := trace w |}).

(** [cookies.get(k)]: [undefined] when there is no such cookie. *)
Definition cookies_get (k : jsstring) : M JS.value :=
  fun _ w =>
    (Returned match jar_get k (cookieJar w) with
              | Some c => value c
              | None => VUndefined
              end,
     w).

(** [router.push(url)] *)
Definition router_push (url : jsstring) : M unit := emit (RouterPush url).

(** [console.error(...args)] *)
Definition console_error (args : list LogArg) : M unit := emit (ConsoleError args).

(** [alert(message)] *)
Definition alert (message : jsstring) : M unit := emit (Alert message).

(** ** The component's functions *)

(** The effect of lines 32-37. *)
Definition sessionGuard : M unit :=
  authToken <- cookies_get (lit "auth-token") ;;
  if truthy authToken then router_push (lit "/landing") else ret tt.

(** The inputs wired to [handleChange], by their [id]. *)
Inductive InputId : Type := id_name | id_mobileNumber | id_password.

(** [{ ...prevValues, [id]: value }] *)
Definition assign (id : InputId) (v : jsstring) (prevValues : FormValues) : FormValues :=
  match id with
  | id_name =>
      {| name := v; mobileNumber := mobileNumber prevValues;
         password := password prevValues |}
  | id_mobileNumber =>
      {| name := name prevValues; mobileNumber := v;
         password := password prevValues |}
  | id_password =>
      {| name := name prevValues; mobileNumber := mobileNumber prevValues;
         password := v |}
  end.

(** [handleChange], lines 61-67. *)
Definition handleChange (id : InputId) (v : jsstring) : M unit :=
  setFormValues_with (assign id v).

(** [handleSubmit], lines 69-98. [formValues] is the value the render that
    created the handler closed over. *)
Definition handleSubmit (formValues : FormValues) : M unit :=
  preventDefault ;;
  let formErrors := validateForm formValues in
  if 0 <? Z.of_nat (List.length (Errors.keys formErrors)) then
    setErrors formErrors
  else
    try_catch_finally
      (setLoader true ;;
       addDoc (lit "users") formValues ;;
       setFormValues {| name := lit ""; mobileNumber := lit ""; password := lit "" |} ;;
       expiryDate <- new_Date ;;
       day <- Date_getDate expiryDate ;;
       expiryDate <- Date_setDate expiryDate (plus day 30) ;;
       cookies_set (lit "auth-token") (lit "dummy-auth-token") expiryDate ;;
       router_push (lit "/landing"))
      (fun error =>
         console_error [LogString (lit "Error adding document: "); LogError error] ;;
         alert (lit "Error adding document: " ++ toString error))
      (setLoader false).

(** [signInGoogle], lines 100-111. *)
Definition signInGoogle : M unit :=
  try_catch
    (result <- signInWithPopup ;;
     expiryDate <- new_Date ;;
     day <- Date_getDate expiryDate ;;
     expiryDate <- Date_setDate expiryDate (plus day 30) ;;
     cookies_set (lit "auth-token") (refreshToken (user result)) expiryDate ;;
     router_push (lit "/landing"))
    (fun error => console_error [LogError error]).

(** ** A page visit: the mount, then what the user does *)

Inductive Interaction : Type :=
| Change (id : InputId) (v : jsstring)
| Submit
| ClickGoogle.

(** The handler an interaction reaches, bound to the state the current
    render shows. *)
Definition handler (i : Interaction) : M unit :=
  match i with
  | Change id v => handleChange id v
  | Submit => fun h w => handleSubmit (formValues (state w)) h w
  | ClickGoogle => signInGoogle
  end.

(** Interactions that come one after another, each when the handler of
    the one before has settled. A handler started while another is still
    awaiting its remote call is not covered. *)
Fixpoint interact (steps : list (Host * Interaction)) (w : World) : World :=
  match steps with
  | [] => w
  | (h, i) :: steps' => interact steps' (exec (handler i) h w)
  end.

(** The state of lines 22-28, in a browser holding the cookies [jar]. *)
Definition mounted (jar : list (jsstring * Cookie)) : World :=
  {| state :=
       {| formValues := {| name := lit ""; mobileNumber := lit ""; password := lit "" |};
          errors := Errors.empty;
          loader := false |};
     cookieJar := jar;
     firestore := [];
     trace := [] |}.

(** The mount, its guard, and then the interactions. The guard's effect
    runs again after later renders; those runs read the cookie and at most
    push the landing route again, and are left out of the trace. *)
Definition visit (jar : list (jsstring * Cookie)) (h0 : Host)
  (steps : list (Host * Interaction)) : World :=
  interact steps (exec sessionGuard h0 (mounted jar)).

(** ** What the page shows, lines 113-207

    The parts of the markup that depend on the state: the three controlled
    inputs, the message under each, and the submit button. *)

Inductive ButtonContent : Type :=
| Spinner
| Text (s : jsstring).

Record View : Type := {
  name_input : jsstring;
  mobileNumber_input : jsstring;
  password_input : jsstring;
  name_message : option jsstring;
  mobileNumber_message : option jsstring;
  password_message : option jsstring;
  submit_disabled : bool;
  submit_content : ButtonContent
}.

(** [{e && <p>{e}</p>}]: a paragraph when [e] is set and not the empty
    string, nothing otherwise. *)
Definition paragraph_if (e : option jsstring) : option jsstring :=
  match e with
  | Some m => if truthy_string m then Some m else None
  | None => None
  end.

Definition render (s : State) : View :=
  {| name_input := name (formValues s);
     mobileNumber_input := mobileNumber (formValues s);
     password_input := password (formValues s);
     name_message := paragraph_if (Errors.name (errors s));
     mobileNumber_message := paragraph_if (Errors.mobileNumber (errors s));
     password_message := paragraph_if (Errors.password (errors s));
     submit_disabled := loader s;
     submit_content := if loader s then Spinner else Text (lit "Join Room") |}.

End Login.

(* ================================================================== *)
(** * The expense row: [src/component/addexpense/Component/AddExpense.tsx] *)
(* ================================================================== *)

Module AddExpense.
Import JS.

(** The [value] of the multi-select's change event: a string on autofill,
    an array otherwise. *)
Inductive SelectValue : Type :=
| AsString (s : jsstring)
| AsArray (a : list jsstring).

(** The component's one [useState] cell. *)
Record State : Type := { personName : list jsstring }.

(** The code unit of [","]. *)
Definition comma : code_unit := 44%N.

(** [handleChange], lines 50-58. *)
Definition handleChange (value : SelectValue) (st : State) : State :=
  {| personName :=
       match value with
       | AsString s => split s comma
       | AsArray a => a
       end |}.

(** The participants on offer, lines 24-35. *)
Definition names : list jsstring :=
  [lit "Oliver Hansen"; lit "Van Henry"; lit "April Tucker"; lit "Ralph Hubbard";
   lit "Omar Alexander"; lit "Carlos Abbott"; lit "Miriam Wagner";
   lit "Bradley Wilkerson"; lit "Virginia Andrews"; lit "Kelly Snyder"].

(** The two font weights [getStyles] reads off the theme. *)
Record Typography : Type := {
  fontWeightRegular : JS.value;
  fontWeightMedium : JS.value
}.
Record Theme : Type := { typography : Typography }.

Record Style : Type := { fontWeight : JS.value }.

(** [getStyles], lines 37-44. *)
Definition getStyles (name : jsstring) (personName : list jsstring) (theme : Theme)
  : Style :=
  {| fontWeight :=
       if Z.eqb (indexOf personName name) (-1)
       then fontWeightRegular (typography theme)
       else fontWeightMedium (typography theme) |}.

End AddExpense.

(* ================================================================== *)
(** * What the specification says, in its own words                    *)
(* ================================================================== *)

Module Spec.
Import JS Login.
Local Open Scope Z_scope.

(** "empty or whitespace-only" *)
Definition blank (s : jsstring) : Prop :=
  Forall (fun c => isWhiteSpace c = true) s.

(** "exactly 10 decimal digits (no leading/trailing characters allowed)" *)
Definition exactly_ten_digits (s : jsstring) : Prop :=
  List.length s = 10%nat /\ Forall (fun c => isDigit c = true) s.

(** The three rules of the Field Validator, each as the condition under
    which it reports an error. *)
Definition name_rule_fails (v : FormValues) : Prop :=
  trim (name v) = [].
Definition mobileNumber_rule_fails (v : FormValues) : Prop :=
  trim (mobileNumber v) = [] \/ ~ exactly_ten_digits (mobileNumber v).
Definition password_rule_fails (v : FormValues) : Prop :=
  trim (password v) = [] \/ JS.length (password v) < 6.

(** "an expiry 30 days from now": the same local wall-clock time, thirty
    calendar days on. *)
Definition thirty_days_later (tz : TimeZone) (d : Date) : Date :=
  match d with
  | Some t => TimeClip (UTC tz (LocalTime tz t + 30 * msPerDay))
  | None => None
  end.

(** What [cookies.get("auth-token")] gives in a browser holding [jar]: the
    value the session guard tests. *)
Definition authToken (jar : list (jsstring * Cookie)) : JS.value :=
  match jar_get (lit "auth-token") jar with
  | Some c => value c
  | None => VUndefined
  end.

(** "a cookie named 'auth-token' is present" *)
Definition token_present (jar : list (jsstring * Cookie)) : Prop :=
  jar_get (lit "auth-token") jar <> None.


(** A zone whose offset never changes. *)
Definition fixed_offset (tz : TimeZone) (off : Z) : Prop :=
  (forall t, offsetAtUTC tz t = off) /\ (forall t, offsetAtLocal tz t = off).

(** The field an input's [id] names. *)
Definition field (id : InputId) (v : FormValues) : jsstring :=
  match id with
  | id_name => name v
  | id_mobileNumber => mobileNumber v
  | id_password => password v
  end.

Definition same_input (a b : InputId) : bool :=
  match a, b with
  | id_name, id_name | id_mobileNumber, id_mobileNumber | id_password, id_password => true
  | _, _ => false
  end.

(** What was typed last into the input [id] in the course of [steps], or
    [init] when nothing was. *)
Fixpoint last_typed (id : InputId) (steps : list (Host * Interaction))
  (init : jsstring) : jsstring :=
  match steps with
  | [] => init
  | (_, Change id' v) :: rest =>
      last_typed id rest (if same_input id id' then v else init)
  | _ :: rest => last_typed id rest init
  end.

(** A step that is a keystroke in one of the inputs. *)
Definition is_change (step : Host * Interaction) : Prop :=
  match snd step with
  | Change _ _ => True
  | _ => False
  end.

(** Every cookie write names "auth-token" and has a navigation to the
    landing route right after it, and navigation goes nowhere else. *)
Fixpoint cookie_then_landing (events : list Event) : Prop :=
  match events with
  | [] => True
  | CookiesSet k _ _ :: rest =>
      k = lit "auth-token" /\
      match rest with
      | RouterPush url :: _ => url = lit "/landing"
      | _ => False
      end /\
      cookie_then_landing rest
  | RouterPush url :: rest => url = lit "/landing" /\ cookie_then_landing rest
  | _ :: rest => cookie_then_landing rest
  end.

(** A document that may be sent to the remote store: one for the "users"
    collection that passes validation. *)
Definition valid_user_document (d : jsstring * FormValues) : Prop :=
  fst d = lit "users" /\ validateForm (snd d) = Errors.empty.

(** The documents a trace shows being sent, stored or not. *)
Fixpoint documents_sent (events : list Event) : list (jsstring * FormValues) :=
  match events with
  | [] => []
  | AddDoc c d :: rest => (c, d) :: documents_sent rest
  | _ :: rest => documents_sent rest
  end.

(** The page is in step with its state: the spinner is off and every
    stored message is one the markup shows. *)
Definition in_step (w : World) : Prop :=
  loader (state w) = false /\
  paragraph_if (Errors.name (errors (state w))) = Errors.name (errors (state w)) /\
  paragraph_if (Errors.mobileNumber (errors (state w)))
  = Errors.mobileNumber (errors (state w)) /\
  paragraph_if (Errors.password (errors (state w))) = Errors.password (errors (state w)).

End Spec.

(* ================================================================== *)
(** * Concrete inputs                                                  *)
(* ================================================================== *)

Module Samples.
Import JS Login.
Local Open Scope Z_scope.

Definition utc : TimeZone :=
  {| offsetAtUTC := fun _ => 0; offsetAtLocal := fun _ => 0 |}.

(** 2024-02-29T12:00:00Z *)
Definition noon : Z := 1709208000000.

Definition network_down : exn := {| toString := lit "FirebaseError: unavailable" |}.
Definition popup_closed : exn := {| toString := lit "FirebaseError: auth/popup-closed-by-user" |}.

Definition google_user : UserCredential :=
  {| user := {| refreshToken := lit "AMf-vBx" |} |}.

(** A host on which both remote calls succeed, and one on which both fail. *)
Definition online : Host :=
  {| timeZone := utc; clock := noon;
     addDoc_settles := fun _ _ => Fulfilled tt;
     signInWithPopup_settles := Fulfilled google_user |}.

Definition offline : Host :=
  {| timeZone := utc; clock := noon;
     addDoc_settles := fun _ _ => Rejected network_down;
     signInWithPopup_settles := Rejected popup_closed |}.

Definition valid_form : FormValues :=
  {| name := lit "Asha"; mobileNumber := lit "5551234567"; password := lit "secret" |}.

Definition empty_form : FormValues :=
  {| name := lit ""; mobileNumber := lit ""; password := lit "" |}.

(** The valid form with another mobile number, or another password. *)
Definition with_mobileNumber (m : string) : FormValues :=
  {| name := lit "Asha"; mobileNumber := lit m; password := lit "secret" |}.

Definition with_password (p : string) : FormValues :=
  {| name := lit "Asha"; mobileNumber := lit "5551234567"; password := lit p |}.

(** The page after a first submit of the empty form, the fields then
    filled in correctly. *)
Definition corrected_after_errors : World :=
  {| state := {| formValues := valid_form;
                 errors := validateForm empty_form;
                 loader := false |};
     cookieJar := []; firestore := [];
     trace := [PreventDefault; SetErrors (validateForm empty_form)] |}.

(** A browser holding the cookie [auth-token=], its value empty. *)
Definition empty_token_jar : list (jsstring * Cookie) :=
  [(lit "auth-token", {| value := VString (lit ""); expires := None |})].

(** A browser holding a token set long ago. *)
Definition stale_token_jar : list (jsstring * Cookie) :=
  [(lit "auth-token", {| value := VString (lit "dummy-auth-token"); expires := None |})].

(** Typing the valid form into the three inputs, with a slip in the name
    on the way. *)
Definition typing_valid_form : list (Host * Interaction) :=
  [(online, Change id_name (lit "Ash"));
   (online, Change id_mobileNumber (lit "5551234567"));
   (online, Change id_name (lit "Asha"));
   (online, Change id_password (lit "secret"))].



(** A zone on daylight saving time at [noon] and back on standard time a
    month later: one hour ahead of UTC, then none. *)
Definition summer_then_winter : TimeZone :=
  {| offsetAtUTC := fun _ => 3600000; offsetAtLocal := fun _ => 0 |}.

(** A browser that holds another site cookie. *)
Definition consent_jar : list (jsstring * Cookie) :=
  [(lit "consent", {| value := VString (lit "yes"); expires := None |})].

(** The default weights of the theme. *)
Definition default_theme : AddExpense.Theme :=
  {| AddExpense.typography :=
       {| AddExpense.fontWeightRegular := VNumber 400;
          AddExpense.fontWeightMedium := VNumber 500 |} |}.

End Samples.

(* ================================================================== *)
(** * Facts about the host functions                                   *)
(* ================================================================== *)

Section StringFacts.
Import JS Spec.

Lemma eqb_refl (s : jsstring) : JS.eqb s s = true.
Proof.
  induction s as [|c s IH]; simpl; [reflexivity|].
  now rewrite N.eqb_refl, IH.
Qed.

Lemma eqb_eq (a b : jsstring) : JS.eqb a b = true <-> a = b.
Proof.
  split; [|intros ->; apply eqb_refl].
  revert b; induction a as [|x a IH]; intros [|y b]; simpl; try easy.
  intros H; apply andb_prop in H as [Hx Hab].
  apply N.eqb_eq in Hx; subst y. now rewrite (IH b Hab).
Qed.

(** What [trimStart] leaves is empty or begins with a code unit that is
    not white space. *)
Lemma trimStart_head (s : jsstring) :
  trimStart s = [] \/
  exists c r, trimStart s = c :: r /\ isWhiteSpace c = false.
Proof.
  induction s as [|c s IH]; simpl; [now left|].
  destruct (isWhiteSpace c) eqn:Hc; [exact IH|].
  right; now exists c, s.
Qed.

Lemma trimStart_nil (s : jsstring) : trimStart s = [] <-> blank s.
Proof.
  unfold blank; induction s as [|c s IH]; simpl.
  - split; [constructor | reflexivity].
  - destruct (isWhiteSpace c) eqn:Hc.
    + rewrite IH; split; [now constructor | now inversion 1].
    + split; [discriminate|]. inversion 1; congruence.
Qed.

(** [trimStart] only drops white space from the front. *)
Lemma trimStart_split (s : jsstring) :
  exists pre, s = pre ++ trimStart s /\ blank pre.
Proof.
  induction s as [|c s (pre & Hs & Hpre)]; simpl.
  - exists []; split; [reflexivity | constructor].
  - destruct (isWhiteSpace c) eqn:Hc.
    + exists (c :: pre); split; [simpl; now f_equal | now constructor].
    + exists []; split; [reflexivity | constructor].
Qed.

Lemma blank_rev (s : jsstring) : blank (rev s) <-> blank s.
Proof.
  unfold blank; rewrite !Forall_forall.
  split; intros H c Hc; apply H; [now apply in_rev in Hc | now apply in_rev].
Qed.

Lemma blank_app (a b : jsstring) : blank (a ++ b) <-> blank a /\ blank b.
Proof. unfold blank; apply Forall_app. Qed.

(** A string is empty after trimming exactly when all of it is white
    space. *)
Lemma trim_nil (s : jsstring) : trim s = [] <-> blank s.
Proof.
  unfold trim, trimEnd; split.
  - intros H.
    assert (Hr : trimStart (rev (trimStart s)) = []).
    { destruct (trimStart (rev (trimStart s))) as [|c r] eqn:E; [reflexivity|].
      simpl in H. now destruct (rev r). }
    apply trimStart_nil in Hr. apply -> blank_rev in Hr.
    destruct (trimStart_head s) as [E | (c & r & E & Hc)].
    + now apply trimStart_nil.
    + rewrite E in Hr. unfold blank in Hr. inversion Hr; congruence.
  - intros H. apply trimStart_nil in H. now rewrite H.
Qed.

(** The decomposition [String.prototype.trim] promises: white space is
    taken off both ends, and what is left neither starts nor ends with
    white space. *)
Lemma trim_split (s : jsstring) :
  exists pre post,
    s = pre ++ trim s ++ post /\ blank pre /\ blank post /\
    (forall c r, trim s = c :: r -> isWhiteSpace c = false) /\
    (forall c r, trim s = r ++ [c] -> isWhiteSpace c = false).
Proof.
  destruct (trimStart_split s) as (pre & Hs & Hpre).
  destruct (trimStart_split (rev (trimStart s))) as (post' & Hr & Hpost).
  exists pre, (rev post'). unfold trim, trimEnd.
  assert (Hmid : trimStart s = rev (trimStart (rev (trimStart s))) ++ rev post').
  { rewrite <- rev_app_distr, <- Hr. now rewrite rev_involutive. }
  repeat split.
  - now rewrite <- Hmid.
  - exact Hpre.
  - now apply blank_rev.
  - intros c r E.
    destruct (trimStart_head s) as [E0 | (c0 & r0 & E0 & Hc0)].
    + rewrite E0 in E; discriminate.
    + rewrite Hmid in E0. rewrite E in E0. simpl in E0. congruence.
  - intros c r E.
    destruct (trimStart_head (rev (trimStart s))) as [E0 | (c0 & r0 & E0 & Hc0)].
    + rewrite E0 in E. simpl in E. now destruct r.
    + rewrite E0 in E. apply (f_equal (@rev _)) in E.
      rewrite rev_involutive, rev_app_distr in E. simpl in E. congruence.
Qed.

Lemma truthy_trim_false (s : jsstring) :
  truthy_string (trim s) = false <-> trim s = [].
Proof. destruct (trim s); simpl; split; congruence. Qed.

Lemma truthy_trim_true (s : jsstring) :
  truthy_string (trim s) = true <-> trim s <> [].
Proof. destruct (trim s); simpl; split; congruence. Qed.

(** ** The pattern of the mobile number *)

Lemma match_digits_spec (n : nat) (s rest : jsstring) :
  match_digits n s = Some rest <->
  exists pre, s = pre ++ rest /\ List.length pre = n /\
              Forall (fun c => isDigit c = true) pre.
Proof.
  revert s; induction n as [|n IH]; intros s; simpl.
  - split.
    + intros [= ->]. exists []; repeat split; constructor.
    + intros (pre & -> & Hl & _). destruct pre; [reflexivity | discriminate].
  - destruct s as [|c s].
    + split; [discriminate|].
      intros (pre & Hs & Hl & _). destruct pre; discriminate.
    + destruct (isDigit c) eqn:Hc.
      * rewrite IH. split.
        -- intros (pre & -> & Hl & Hd).
           exists (c :: pre); repeat split; simpl; [now f_equal | now constructor].
        -- intros (pre & Hs & Hl & Hd). destruct pre as [|c' pre]; [discriminate|].
           injection Hs as -> ->. exists pre; repeat split.
           ++ now injection Hl.
           ++ now inversion Hd.
      * split; [discriminate|].
        intros (pre & Hs & Hl & Hd). destruct pre as [|c' pre]; [discriminate|].
        injection Hs as -> ->. inversion Hd; congruence.
Qed.

(** A pattern that begins with [^] matches at no later start index. *)
Lemma search_from_anchored (r : regex) (pos : nat) (s : jsstring) :
  search_from (AssertStart :: r) (S pos) s = false.
Proof.
  revert pos; induction s as [|c s IH]; intros pos; simpl; [reflexivity|].
  apply IH.
Qed.

Lemma test_anchored (r : regex) (s : jsstring) :
  test (AssertStart :: r) s = match_here r 0 s.
Proof.
  unfold test. destruct s as [|c s]; simpl.
  - now rewrite orb_false_r.
  - now rewrite search_from_anchored, orb_false_r.
Qed.

(** [/^\d{10}$/] accepts exactly the strings of ten decimal digits. *)
Lemma test_mobileNumber_pattern (s : jsstring) :
  test Login.mobileNumber_pattern s = true <-> exactly_ten_digits s.
Proof.
  unfold Login.mobileNumber_pattern, exactly_ten_digits.
  rewrite test_anchored. cbn [match_here].
  destruct (match_digits 10 s) as [rest|] eqn:E.
  - apply match_digits_spec in E as (pre & -> & Hl & Hd).
    destruct rest as [|c rest].
    + rewrite app_nil_r. now split.
    + split; [discriminate|]. intros [Hlen _].
      rewrite length_app in Hlen. simpl in Hlen. lia.
  - split; [discriminate|]. intros [Hl Hd].
    assert (H : match_digits 10 s = Some []).
    { apply match_digits_spec. exists s. now rewrite app_nil_r. }
    congruence.
Qed.

Lemma test_mobileNumber_pattern_false (s : jsstring) :
  test Login.mobileNumber_pattern s = false <-> ~ exactly_ten_digits s.
Proof.
  rewrite <- test_mobileNumber_pattern.
  destruct (test _ s); split; congruence.
Qed.

(** Ten digits are never blank. *)
Lemma ten_digits_not_blank (s : jsstring) :
  exactly_ten_digits s -> trim s <> [].
Proof.
  intros [Hl Hd] Ht. apply trim_nil in Ht.
  destruct s as [|c s]; [discriminate|].
  inversion Hd as [|? ? Hc _]; inversion Ht as [|? ? Hw _]; subst.
  unfold isDigit in Hc; unfold isWhiteSpace in Hw.
  apply andb_prop in Hc as [H1 H2].
  apply N.leb_le in H1, H2.
  repeat (apply orb_prop in Hw as [Hw|Hw]);
    repeat match goal with
           | H : (_ && _)%bool = true |- _ => apply andb_prop in H as [? ?]
           | H : (_ <=? _)%N = true |- _ => apply N.leb_le in H
           | H : (_ =? _)%N = true |- _ => apply N.eqb_eq in H
           end; lia.
Qed.

End StringFacts.

Section SplitFacts.
Import JS.

Lemma split_go_cons (sep : code_unit) (cur s : jsstring) :
  exists p ps, split_go sep cur s = p :: ps.
Proof.
  revert cur; induction s as [|c s IH]; intros cur; simpl.
  - now exists (rev cur), [].
  - destruct (N.eqb c sep); [now exists (rev cur), (split_go sep [] s) | apply IH].
Qed.

Lemma join_cons (sep : code_unit) (p q : jsstring) (ps : list jsstring) :
  join sep (p :: q :: ps) = p ++ sep :: join sep (q :: ps).
Proof. reflexivity. Qed.

Lemma join_split_go (sep : code_unit) (cur s : jsstring) :
  join sep (split_go sep cur s) = rev cur ++ s.
Proof.
  revert cur; induction s as [|c s IH]; intros cur; simpl.
  - now rewrite app_nil_r.
  - destruct (N.eqb c sep) eqn:Hc.
    + apply N.eqb_eq in Hc; subst c.
      destruct (split_go_cons sep [] s) as (p & ps & E).
      specialize (IH []). rewrite E in *. rewrite join_cons, IH. reflexivity.
    + rewrite IH. simpl. now rewrite <- app_assoc.
Qed.

Lemma split_go_no_sep (sep : code_unit) (cur s : jsstring) :
  ~ In sep cur -> Forall (fun p => ~ In sep p) (split_go sep cur s).
Proof.
  revert cur; induction s as [|c s IH]; intros cur Hcur; simpl.
  - constructor; [|constructor]. now rewrite <- in_rev.
  - destruct (N.eqb c sep) eqn:Hc.
    + constructor; [now rewrite <- in_rev | apply IH; intros []].
    + apply IH. intros [->|H]; [|contradiction].
      now rewrite N.eqb_refl in Hc.
Qed.

Lemma split_go_length (sep : code_unit) (cur s : jsstring) :
  List.length (split_go sep cur s) = S (count_occ N.eq_dec s sep).
Proof.
  revert cur; induction s as [|c s IH]; intros cur; simpl; [reflexivity|].
  destruct (N.eqb c sep) eqn:Hc.
  - apply N.eqb_eq in Hc; subst c.
    destruct (N.eq_dec sep sep); [|contradiction]. simpl. now rewrite IH.
  - apply N.eqb_neq in Hc.
    destruct (N.eq_dec c sep); [contradiction|]. apply IH.
Qed.

End SplitFacts.

Section DateFacts.
Import JS Spec.
Local Open Scope Z_scope.

Lemma MonthFromTime_range (t : Z) : 0 <= MonthFromTime t <= 11.
Proof.
  unfold MonthFromTime.
  repeat match goal with |- context [if ?b then _ else _] => destruct b end; lia.
Qed.

(** Setting the day of the month to thirty more than it is moves the
    local time on by thirty whole days, whatever the month lengths on the
    way. *)
Lemma MakeDay_plus_30 (t : Z) :
  MakeDate (MakeDay (YearFromTime t) (MonthFromTime t) (DateFromTime t + 30))
           (TimeWithinDay t)
  = t + 30 * msPerDay.
Proof.
  pose proof (MonthFromTime_range t) as Hm.
  unfold MakeDate, MakeDay.
  rewrite (Z.div_small (MonthFromTime t) 12), (Z.mod_small (MonthFromTime t) 12) by lia.
  rewrite Z.add_0_r.
  unfold DateFromTime, DayWithinYear, Day, TimeWithinDay.
  pose proof (Z.div_mod t msPerDay) as Hdm.
  unfold msPerDay in *. lia.
Qed.

Lemma setDate_plus_30 (tz : TimeZone) (t : Z) :
  setDate tz t (getDate tz t + 30) = thirty_days_later tz (Some t).
Proof.
  unfold setDate, getDate, thirty_days_later.
  now rewrite MakeDay_plus_30.
Qed.

(** In a zone of fixed offset, and away from the end of the time range,
    that is thirty times twenty-four hours after the starting time. *)
Lemma thirty_days_later_fixed (tz : TimeZone) (off t : Z) :
  fixed_offset tz off ->
  Z.abs t <= 8640000000000000 - 30 * msPerDay ->
  thirty_days_later tz (TimeClip t) = Some (t + 2592000000).
Proof.
  intros [Hu Hl] Ht. unfold TimeClip at 1.
  destruct (8640000000000000 <? Z.abs t) eqn:E; [apply Z.ltb_lt in E; unfold msPerDay in *; lia|].
  unfold thirty_days_later, UTC, LocalTime, TimeClip. rewrite Hu, Hl.
  unfold msPerDay in *.
  destruct (8640000000000000 <? Z.abs (t + off + 30 * 86400000 - off)) eqn:E';
    [apply Z.ltb_lt in E'; lia|].
  f_equal; lia.
Qed.

Lemma year_up_spec (fuel : nat) (y d : Z) :
  DayFromYear y <= d < DayFromYear (y + Z.of_nat fuel + 1) ->
  DayFromYear (year_up fuel y d) <= d < DayFromYear (year_up fuel y d + 1).
Proof.
  revert y; induction fuel as [|fuel IH]; intros y H; simpl.
  - now replace (y + Z.of_nat 0 + 1) with (y + 1) in H by lia.
  - destruct (DayFromYear (y + 1) <=? d) eqn:E.
    + apply Z.leb_le in E. apply IH.
      replace (y + 1 + Z.of_nat fuel + 1) with (y + Z.of_nat (S fuel) + 1) by lia.
      lia.
    + apply Z.leb_gt in E. lia.
Qed.

(** [YearFromTime] is the year the day of [t] falls in. *)
Lemma YearFromTime_spec (t : Z) :
  DayFromYear (YearFromTime t) <= Day t < DayFromYear (YearFromTime t + 1).
Proof.
  unfold YearFromTime. set (d := Day t). cbv zeta.
  apply year_up_spec.
  rewrite Z2Nat.id by (pose proof (Z.abs_nonneg d); apply Z.add_nonneg_nonneg; [apply Z.div_pos|]; lia).
  unfold DayFromYear.
  destruct (0 <=? d) eqn:E; [apply Z.leb_le in E | apply Z.leb_gt in E].
  - rewrite (Z.abs_eq d) by lia.
    Z.div_mod_to_equations. lia.
  - rewrite (Z.abs_neq d) by lia.
    Z.div_mod_to_equations. lia.
Qed.

End DateFacts.

(* ================================================================== *)
(** * The Field Validator                                              *)
(* ================================================================== *)

Section ValidatorFacts.
Import JS Login Spec.
Local Open Scope Z_scope.

(** Each entry of the result, read off the statement that sets it. *)
Lemma validateForm_name_entry (v : FormValues) :
  Errors.name (validateForm v) =
  if truthy_string (trim (name v)) then None else Some (lit "Name is required").
Proof.
  unfold validateForm.
  destruct (truthy_string (trim (name v))),
           (truthy_string (trim (mobileNumber v))),
           (test mobileNumber_pattern (mobileNumber v)),
           (truthy_string (trim (password v))),
           (JS.length (password v) <? 6); reflexivity.
Qed.

Lemma validateForm_mobileNumber_entry (v : FormValues) :
  Errors.mobileNumber (validateForm v) =
  if truthy_string (trim (mobileNumber v)) then
    if test mobileNumber_pattern (mobileNumber v) then None
    else Some (lit "Mobile number must be 10 digits")
  else Some (lit "Mobile number is required").
Proof.
  unfold validateForm.
  destruct (truthy_string (trim (name v))),
           (truthy_string (trim (mobileNumber v))),
           (test mobileNumber_pattern (mobileNumber v)),
           (truthy_string (trim (password v))),
           (JS.length (password v) <? 6); reflexivity.
Qed.

Lemma validateForm_password_entry (v : FormValues) :
  Errors.password (validateForm v) =
  if truthy_string (trim (password v)) then
    if JS.length (password v) <? 6 then
      Some (lit "Password must be at least 6 characters")
    else None
  else Some (lit "Password is required").
Proof.
  unfold validateForm.
  destruct (truthy_string (trim (name v))),
           (truthy_string (trim (mobileNumber v))),
           (test mobileNumber_pattern (mobileNumber v)),
           (truthy_string (trim (password v))),
           (JS.length (password v) <? 6); reflexivity.
Qed.

Lemma name_entry_iff (v : FormValues) :
  Errors.name (validateForm v) <> None <-> name_rule_fails v.
Proof.
  rewrite validateForm_name_entry. unfold name_rule_fails.
  destruct (trim (name v)); simpl; split; congruence.
Qed.

Lemma mobileNumber_entry_iff (v : FormValues) :
  Errors.mobileNumber (validateForm v) <> None <-> mobileNumber_rule_fails v.
Proof.
  rewrite validateForm_mobileNumber_entry. unfold mobileNumber_rule_fails.
  destruct (truthy_string (trim (mobileNumber v))) eqn:Ht.
  - apply truthy_trim_true in Ht.
    destruct (test mobileNumber_pattern (mobileNumber v)) eqn:Hp.
    + apply test_mobileNumber_pattern in Hp. split; [congruence | tauto].
    + apply test_mobileNumber_pattern_false in Hp. split; [tauto | congruence].
  - apply truthy_trim_false in Ht. split; [tauto | congruence].
Qed.

Lemma password_entry_iff (v : FormValues) :
  Errors.password (validateForm v) <> None <-> password_rule_fails v.
Proof.
  rewrite validateForm_password_entry. unfold password_rule_fails.
  destruct (truthy_string (trim (password v))) eqn:Ht.
  - apply truthy_trim_true in Ht.
    destruct (JS.length (password v) <? 6) eqn:Hl.
    + apply Z.ltb_lt in Hl. split; [tauto | congruence].
    + apply Z.ltb_ge in Hl. split; [congruence | intros [?|?]; [tauto | lia]].
  - apply truthy_trim_false in Ht. split; [tauto | congruence].
Qed.

(** [Object.keys] lists a key exactly when its entry is set, and nothing
    else. *)
Lemma keys_name (e : Errors.t) :
  In (lit "name") (Errors.keys e) <-> Errors.name e <> None.
Proof.
  destruct e as [[n|] [m|] [p|]]; vm_compute; split; intuition congruence.
Qed.

Lemma keys_mobileNumber (e : Errors.t) :
  In (lit "mobileNumber") (Errors.keys e) <-> Errors.mobileNumber e <> None.
Proof.
  destruct e as [[n|] [m|] [p|]]; vm_compute; split; intuition congruence.
Qed.

Lemma keys_password (e : Errors.t) :
  In (lit "password") (Errors.keys e) <-> Errors.password e <> None.
Proof.
  destruct e as [[n|] [m|] [p|]]; vm_compute; split; intuition congruence.
Qed.

Lemma keys_among (e : Errors.t) (k : jsstring) :
  In k (Errors.keys e) ->
  k = lit "name" \/ k = lit "mobileNumber" \/ k = lit "password".
Proof.
  destruct e as [[n|] [m|] [p|]]; unfold Errors.keys; simpl; intuition auto.
Qed.

Lemma keys_nil (e : Errors.t) : Errors.keys e = [] <-> e = Errors.empty.
Proof.
  destruct e as [[n|] [m|] [p|]]; unfold Errors.keys, Errors.empty; simpl;
    split; congruence.
Qed.

Lemma empty_iff (e : Errors.t) :
  e = Errors.empty <->
  Errors.name e = None /\ Errors.mobileNumber e = None /\ Errors.password e = None.
Proof.
  destruct e as [n m p]; unfold Errors.empty; simpl. split.
  - intros [= -> -> ->]; auto.
  - intros (-> & -> & ->); reflexivity.
Qed.

Lemma not_set_iff (o : option jsstring) : ~ o <> None <-> o = None.
Proof.
  destruct o as [m|]; split; try congruence.
  intros H. exfalso. apply H. discriminate.
Qed.

(** The guard of [handleSubmit], as a test for the empty record. *)
Lemma guard_false (e : Errors.t) :
  (0 <? Z.of_nat (List.length (Errors.keys e))) = false <-> e = Errors.empty.
Proof.
  rewrite <- keys_nil.
  destruct (Errors.keys e); cbn; split; intros H; first [reflexivity | discriminate].
Qed.

Lemma guard_true (e : Errors.t) :
  (0 <? Z.of_nat (List.length (Errors.keys e))) = true <-> e <> Errors.empty.
Proof.
  rewrite <- guard_false.
  destruct (0 <? Z.of_nat (List.length (Errors.keys e))); split; congruence.
Qed.

End ValidatorFacts.

(* ================================================================== *)
(** * The claims about the Field Validator                             *)
(* ================================================================== *)

Section ValidatorClaims.
Import JS Login Spec.
Local Open Scope Z_scope.

(** C4. For every form, the validator's [mobileNumber] entry is the
    "required" message when the mobile number is empty after trimming;
    otherwise the "must be 10 digits" message when the untrimmed string is
    not exactly ten decimal digits; otherwise there is no entry. *)
Theorem validateForm_mobileNumber_rule (v : FormValues) :
  (trim (mobileNumber v) = [] ->
   Errors.mobileNumber (validateForm v) = Some (lit "Mobile number is required")) /\
  (trim (mobileNumber v) <> [] -> ~ exactly_ten_digits (mobileNumber v) ->
   Errors.mobileNumber (validateForm v) = Some (lit "Mobile number must be 10 digits")) /\
  (trim (mobileNumber v) <> [] -> exactly_ten_digits (mobileNumber v) ->
   Errors.mobileNumber (validateForm v) = None).
Proof.
  rewrite validateForm_mobileNumber_entry.
  destruct (truthy_string (trim (mobileNumber v))) eqn:Ht.
  - apply truthy_trim_true in Ht.
    destruct (test mobileNumber_pattern (mobileNumber v)) eqn:Hp.
    + apply test_mobileNumber_pattern in Hp. repeat split; tauto.
    + apply test_mobileNumber_pattern_false in Hp. repeat split; tauto.
  - apply truthy_trim_false in Ht. repeat split; tauto.
Qed.

(** C4 on the four mobile numbers the specification lists. *)
Lemma validateForm_mobileNumber_examples :
  Errors.mobileNumber (validateForm (Samples.with_mobileNumber "5551234567")) = None /\
  Errors.mobileNumber (validateForm (Samples.with_mobileNumber "123"))
    = Some (lit "Mobile number must be 10 digits") /\
  Errors.mobileNumber (validateForm (Samples.with_mobileNumber "55512345a"))
    = Some (lit "Mobile number must be 10 digits") /\
  Errors.mobileNumber (validateForm (Samples.with_mobileNumber ""))
    = Some (lit "Mobile number is required").
Proof.
  split; [|split; [|split]].
  - apply (proj2 (proj2 (validateForm_mobileNumber_rule (Samples.with_mobileNumber "5551234567")))).
    + discriminate.
    + split; [reflexivity | repeat constructor].
  - apply (proj1 (proj2 (validateForm_mobileNumber_rule (Samples.with_mobileNumber "123")))).
    + discriminate.
    + intros [Hl _]; discriminate Hl.
  - apply (proj1 (proj2 (validateForm_mobileNumber_rule (Samples.with_mobileNumber "55512345a")))).
    + discriminate.
    + intros [Hl _]; discriminate Hl.
  - apply (proj1 (validateForm_mobileNumber_rule (Samples.with_mobileNumber ""))).
    reflexivity.
Defined.

(** C5. For every form, the validator's [password] entry is the "required"
    message when the password is empty after trimming; otherwise the "at
    least 6 characters" message when the untrimmed password is shorter
    than 6 code units; otherwise there is no entry. *)
Theorem validateForm_password_rule (v : FormValues) :
  (trim (password v) = [] ->
   Errors.password (validateForm v) = Some (lit "Password is required")) /\
  (trim (password v) <> [] -> JS.length (password v) < 6 ->
   Errors.password (validateForm v)
   = Some (lit "Password must be at least 6 characters")) /\
  (trim (password v) <> [] -> 6 <= JS.length (password v) ->
   Errors.password (validateForm v) = None).
Proof.
  rewrite validateForm_password_entry.
  destruct (truthy_string (trim (password v))) eqn:Ht.
  - apply truthy_trim_true in Ht.
    destruct (JS.length (password v) <? 6) eqn:Hl.
    + apply Z.ltb_lt in Hl. repeat split; try tauto. intros _ H; lia.
    + apply Z.ltb_ge in Hl. repeat split; try tauto. intros _ H; lia.
  - apply truthy_trim_false in Ht. repeat split; tauto.
Qed.

(** C5 at the boundary: a password of length 5, one of length 6, and the
    empty one. *)
Lemma validateForm_password_examples :
  Errors.password (validateForm (Samples.with_password "abcde"))
    = Some (lit "Password must be at least 6 characters") /\
  Errors.password (validateForm (Samples.with_password "abcdef")) = None /\
  Errors.password (validateForm (Samples.with_password ""))
    = Some (lit "Password is required").
Proof.
  split; [|split].
  - apply (proj1 (proj2 (validateForm_password_rule (Samples.with_password "abcde")))).
    + discriminate.
    + reflexivity.
  - apply (proj2 (proj2 (validateForm_password_rule (Samples.with_password "abcdef")))).
    + discriminate.
    + discriminate.
  - apply (proj1 (validateForm_password_rule (Samples.with_password ""))).
    reflexivity.
Defined.

(** C6. For every form: the [name] key is present exactly when the name is
    empty or all white space; each of the three keys is present exactly
    when its own rule fails, and no other key appears; each entry depends
    on its own field alone, so no rule is skipped because another failed;
    and the record is empty exactly when no rule fails. The validator is a
    function of the form values only: it reads and writes nothing else. *)
Theorem validateForm_keys (v : FormValues) :
  (Errors.name (validateForm v) <> None <-> blank (name v)) /\
  (In (lit "name") (Errors.keys (validateForm v)) <-> name_rule_fails v) /\
  (In (lit "mobileNumber") (Errors.keys (validateForm v))
   <-> mobileNumber_rule_fails v) /\
  (In (lit "password") (Errors.keys (validateForm v)) <-> password_rule_fails v) /\
  (forall k, In k (Errors.keys (validateForm v)) ->
             k = lit "name" \/ k = lit "mobileNumber" \/ k = lit "password") /\
  (forall v', name v' = name v ->
              Errors.name (validateForm v') = Errors.name (validateForm v)) /\
  (forall v', mobileNumber v' = mobileNumber v ->
              Errors.mobileNumber (validateForm v')
              = Errors.mobileNumber (validateForm v)) /\
  (forall v', password v' = password v ->
              Errors.password (validateForm v') = Errors.password (validateForm v)) /\
  (validateForm v = Errors.empty <->
   ~ name_rule_fails v /\ ~ mobileNumber_rule_fails v /\ ~ password_rule_fails v) /\
  (Errors.keys (validateForm v) = [] <-> validateForm v = Errors.empty).
Proof.
  split; [|split; [|split; [|split; [|split; [|split; [|split; [|split; [|split]]]]]]]].
  - rewrite name_entry_iff. apply trim_nil.
  - rewrite keys_name. apply name_entry_iff.
  - rewrite keys_mobileNumber. apply mobileNumber_entry_iff.
  - rewrite keys_password. apply password_entry_iff.
  - intros k. apply keys_among.
  - intros v' E. now rewrite !validateForm_name_entry, E.
  - intros v' E. now rewrite !validateForm_mobileNumber_entry, E.
  - intros v' E. now rewrite !validateForm_password_entry, E.
  - rewrite empty_iff.
    rewrite <- name_entry_iff, <- mobileNumber_entry_iff, <- password_entry_iff.
    rewrite !not_set_iff. reflexivity.
  - apply keys_nil.
Qed.

(** C6 where all three rules fail at once: all three keys are there. *)
Lemma validateForm_keys_empty_form :
  In (lit "name") (Errors.keys (validateForm Samples.empty_form)) /\
  In (lit "mobileNumber") (Errors.keys (validateForm Samples.empty_form)) /\
  In (lit "password") (Errors.keys (validateForm Samples.empty_form)).
Proof.
  pose proof (validateForm_keys Samples.empty_form) as (_ & Hn & Hm & Hp & _).
  split; [|split].
  - apply Hn. reflexivity.
  - apply Hm. left; reflexivity.
  - apply Hp. left; reflexivity.
Defined.

End ValidatorClaims.

(* ================================================================== *)
(** * Running the handlers                                             *)
(* ================================================================== *)

(** Unfold a handler down to the host's answers. *)
Ltac run_handler :=
  cbv beta iota zeta delta
    [Login.handleSubmit Login.signInGoogle Login.sessionGuard Login.handleChange
     Login.handler Login.try_catch_finally Login.try_finally Login.try_catch
     Login.bind Login.ret Login.throw Login.emit Login.modify_state
     Login.preventDefault Login.setErrors Login.setLoader Login.setFormValues
     Login.setFormValues_with Login.addDoc Login.signInWithPopup
     Login.new_Date Login.Date_getDate Login.Date_setDate
     Login.cookies_set Login.cookies_get Login.router_push
     Login.console_error Login.alert Login.exec];
  cbn [fst snd Login.state Login.trace Login.cookieJar Login.firestore
       Login.formValues Login.errors Login.loader].

(** Bring a trace built event by event to the form [old ++ events]. *)
Ltac flatten_trace := rewrite <- ?app_assoc; cbn [app].

Section HandlerFacts.
Import JS Login Spec.
Local Open Scope Z_scope.

(** The expiry the two sign-in paths compute: [new Date()], then
    [setDate(getDate() + 30)]. *)
Lemma expiry_thirty_days (tz : TimeZone) (d : Date) :
  match d with
  | Some t =>
      match plus (option_map (getDate tz) d) 30 with
      | Some v => setDate tz t v
      | None => None
      end
  | None => None
  end = thirty_days_later tz d.
Proof.
  destruct d as [t|]; [|reflexivity].
  cbn [option_map plus]. apply setDate_plus_30.
Qed.

Lemma jar_get_set (k : jsstring) (c : Cookie) (jar : list (jsstring * Cookie)) :
  jar_get k (jar_set k c jar) = Some c.
Proof.
  induction jar as [|[k' c'] jar IH]; simpl.
  - now rewrite eqb_refl.
  - destruct (JS.eqb k k') eqn:E; simpl.
    + now rewrite eqb_refl.
    + now rewrite E.
Qed.

(** The submit handler when validation fails. *)
Lemma handleSubmit_invalid_run (v : FormValues) (h : Host) (w : World) :
  validateForm v <> Errors.empty ->
  handleSubmit v h w =
  (Returned tt,
   {| state := {| formValues := formValues (state w);
                  errors := validateForm v;
                  loader := loader (state w) |};
      cookieJar := cookieJar w;
      firestore := firestore w;
      trace := trace w ++ [PreventDefault; SetErrors (validateForm v)] |}).
Proof.
  intros Hv. unfold handleSubmit. cbv zeta.
  rewrite (proj2 (guard_true _) Hv).
  run_handler. flatten_trace. reflexivity.
Qed.

(** The submit handler when validation passes and the remote write
    succeeds. *)
Lemma handleSubmit_fulfilled_run (v : FormValues) (h : Host) (w : World) (u : unit) :
  validateForm v = Errors.empty ->
  addDoc_settles h (lit "users") v = Fulfilled u ->
  handleSubmit v h w =
  (Returned tt,
   {| state := {| formValues :=
                    {| name := lit ""; mobileNumber := lit ""; password := lit "" |};
                  errors := errors (state w);
                  loader := false |};
      cookieJar :=
        jar_set (lit "auth-token")
          {| value := VString (lit "dummy-auth-token");
             expires := Some (thirty_days_later (timeZone h) (TimeClip (clock h))) |}
          (cookieJar w);
      firestore := firestore w ++ [(lit "users", v)];
      trace :=
        trace w ++
        [PreventDefault; SetLoader true; AddDoc (lit "users") v;
         SetFormValues {| name := lit ""; mobileNumber := lit ""; password := lit "" |};
         CookiesSet (lit "auth-token") (lit "dummy-auth-token")
           (thirty_days_later (timeZone h) (TimeClip (clock h)));
         RouterPush (lit "/landing"); SetLoader false] |}).
Proof.
  intros Hv Hs. unfold handleSubmit. cbv zeta.
  rewrite (proj2 (guard_false _) Hv).
  run_handler. rewrite Hs. run_handler.
  rewrite expiry_thirty_days. flatten_trace. reflexivity.
Qed.

(** The submit handler when validation passes and the remote write
    throws. *)
Lemma handleSubmit_rejected_run (v : FormValues) (h : Host) (w : World) (e : exn) :
  validateForm v = Errors.empty ->
  addDoc_settles h (lit "users") v = Rejected e ->
  handleSubmit v h w =
  (Returned tt,
   {| state := {| formValues := formValues (state w);
                  errors := errors (state w);
                  loader := false |};
      cookieJar := cookieJar w;
      firestore := firestore w;
      trace :=
        trace w ++
        [PreventDefault; SetLoader true; AddDoc (lit "users") v;
         ConsoleError [LogString (lit "Error adding document: "); LogError e];
         Alert (lit "Error adding document: " ++ toString e);
         SetLoader false] |}).
Proof.
  intros Hv Hs. unfold handleSubmit. cbv zeta.
  rewrite (proj2 (guard_false _) Hv).
  run_handler. rewrite Hs. run_handler.
  flatten_trace. reflexivity.
Qed.

(** The federated sign-in, by how the popup settles. *)
Lemma signInGoogle_run (h : Host) (w : World) :
  signInGoogle h w =
  (Returned tt,
   match signInWithPopup_settles h with
   | Fulfilled result =>
       {| state := state w;
          cookieJar :=
            jar_set (lit "auth-token")
              {| value := VString (refreshToken (user result));
                 expires := Some (thirty_days_later (timeZone h) (TimeClip (clock h))) |}
              (cookieJar w);
          firestore := firestore w;
          trace :=
            trace w ++
            [SignInWithPopup;
             CookiesSet (lit "auth-token") (refreshToken (user result))
               (thirty_days_later (timeZone h) (TimeClip (clock h)));
             RouterPush (lit "/landing")] |}
   | Rejected e =>
       {| state := state w;
          cookieJar := cookieJar w;
          firestore := firestore w;
          trace := trace w ++ [SignInWithPopup; ConsoleError [LogError e]] |}
   end).
Proof.
  run_handler. destruct (signInWithPopup_settles h) as [result|e]; run_handler.
  - rewrite expiry_thirty_days. flatten_trace. reflexivity.
  - flatten_trace. reflexivity.
Qed.

Lemma sessionGuard_run (h : Host) (w : World) :
  sessionGuard h w =
  (Returned tt,
   if truthy (authToken (cookieJar w)) then
     {| state := state w; cookieJar := cookieJar w; firestore := firestore w;
        trace := trace w ++ [RouterPush (lit "/landing")] |}
   else w).
Proof.
  run_handler. fold (authToken (cookieJar w)).
  destruct (truthy (authToken (cookieJar w))); reflexivity.
Qed.

(** Handlers only ever add to the trace. *)
Lemma handler_extends (i : Interaction) (h : Host) (w : World) :
  exists events, trace (exec (handler i) h w) = trace w ++ events.
Proof.
  destruct i as [id v | | ].
  - run_handler. eexists. reflexivity.
  - unfold exec, handler.
    destruct (guard_true (validateForm (formValues (state w)))) as [_ Ht].
    destruct (guard_false (validateForm (formValues (state w)))) as [Hf _].
    destruct (0 <? Z.of_nat (List.length (Errors.keys (validateForm (formValues (state w))))))
      eqn:G.
    + rewrite handleSubmit_invalid_run; [eexists; reflexivity|].
      intros E. apply (proj2 (guard_false _)) in E. congruence.
    + specialize (Hf eq_refl).
      destruct (addDoc_settles h (lit "users") (formValues (state w))) as [u|e] eqn:S.
      * rewrite (handleSubmit_fulfilled_run _ _ _ u Hf S). eexists; reflexivity.
      * rewrite (handleSubmit_rejected_run _ _ _ e Hf S). eexists; reflexivity.
  - unfold exec, handler. rewrite signInGoogle_run.
    destruct (signInWithPopup_settles h); eexists; reflexivity.
Qed.

Lemma interact_extends (steps : list (Host * Interaction)) (w : World) :
  exists events, trace (interact steps w) = trace w ++ events.
Proof.
  revert w; induction steps as [|[h i] steps IH]; intros w; simpl.
  - exists []. now rewrite app_nil_r.
  - destruct (IH (exec (handler i) h w)) as (ev2 & E2).
    destruct (handler_extends i h w) as (ev1 & E1).
    exists (ev1 ++ ev2). now rewrite E2, E1, app_assoc.
Qed.

End HandlerFacts.

(* ================================================================== *)
(** * The claims about the handlers                                    *)
(* ================================================================== *)

Section HandlerClaims.
Import JS Login Spec.
Local Open Scope Z_scope.

(** C1. When the validator returns the empty record and the remote write
    succeeds, [handleSubmit] appends the submitted form values to the
    "users" collection, then resets the three fields to the empty string,
    then sets the cookie "auth-token" to the placeholder with an expiry
    thirty days from now, then navigates once to the landing route, and
    last puts the loading flag back to false. In a zone of fixed offset the
    expiry is the clock plus thirty times twenty-four hours. *)
Theorem handleSubmit_success (v : FormValues) (h : Host) (w : World) :
  validateForm v = Errors.empty ->
  addDoc_settles h (lit "users") v = Fulfilled tt ->
  let cleared := {| name := lit ""; mobileNumber := lit ""; password := lit "" |} in
  let expiry := thirty_days_later (timeZone h) (TimeClip (clock h)) in
  handleSubmit v h w =
  (Returned tt,
   {| state := {| formValues := cleared; errors := errors (state w); loader := false |};
      cookieJar :=
        jar_set (lit "auth-token")
          {| value := VString (lit "dummy-auth-token"); expires := Some expiry |}
          (cookieJar w);
      firestore := firestore w ++ [(lit "users", v)];
      trace :=
        trace w ++
        [PreventDefault; SetLoader true; AddDoc (lit "users") v;
         SetFormValues cleared;
         CookiesSet (lit "auth-token") (lit "dummy-auth-token") expiry;
         RouterPush (lit "/landing"); SetLoader false] |})
  /\ authToken (cookieJar (exec (handleSubmit v) h w)) = VString (lit "dummy-auth-token")
  /\ (forall off,
        fixed_offset (timeZone h) off ->
        Z.abs (clock h) <= 8640000000000000 - 30 * msPerDay ->
        expiry = Some (clock h + 30 * msPerDay)).
Proof.
  intros Hv Hs cleared expiry. split; [|split].
  - apply (handleSubmit_fulfilled_run v h w tt Hv Hs).
  - unfold exec. rewrite (handleSubmit_fulfilled_run v h w tt Hv Hs).
    cbn [snd cookieJar]. unfold authToken. now rewrite jar_get_set.
  - intros off Hz Hc. unfold expiry.
    now rewrite (thirty_days_later_fixed _ off).
Qed.

(** C1 on the valid sample form, online, at noon UTC on 29 February 2024:
    the cookie expires at noon on 30 March. *)
Lemma handleSubmit_success_witness :
  trace (exec (handleSubmit Samples.valid_form) Samples.online (mounted [])) =
  [PreventDefault; SetLoader true; AddDoc (lit "users") Samples.valid_form;
   SetFormValues Samples.empty_form;
   CookiesSet (lit "auth-token") (lit "dummy-auth-token") (Some 1711800000000);
   RouterPush (lit "/landing"); SetLoader false].
Proof.
  unfold exec.
  rewrite (proj1 (handleSubmit_success Samples.valid_form Samples.online
                    (mounted []) eq_refl eq_refl)).
  reflexivity.
Defined.

(** C2. When the validator returns the empty record and the remote write
    throws, [handleSubmit] leaves the form values as they were, sets no
    cookie, does not navigate, logs the error and shows it in one alert,
    and puts the loading flag back to false. *)
Theorem handleSubmit_remote_failure
  (v : FormValues) (h : Host) (w : World) (e : exn) :
  validateForm v = Errors.empty ->
  addDoc_settles h (lit "users") v = Rejected e ->
  handleSubmit v h w =
  (Returned tt,
   {| state := {| formValues := formValues (state w);
                  errors := errors (state w);
                  loader := false |};
      cookieJar := cookieJar w;
      firestore := firestore w;
      trace :=
        trace w ++
        [PreventDefault; SetLoader true; AddDoc (lit "users") v;
         ConsoleError [LogString (lit "Error adding document: "); LogError e];
         Alert (lit "Error adding document: " ++ toString e);
         SetLoader false] |}).
Proof.
  intros Hv Hs. exact (handleSubmit_rejected_run v h w e Hv Hs).
Qed.

(** C2 on the valid sample form, offline: the form is still filled in and
    the browser holds no cookie. *)
Lemma handleSubmit_remote_failure_witness :
  let w := interact [(Samples.online, Change id_name (lit "Asha"));
                     (Samples.online, Change id_mobileNumber (lit "5551234567"));
                     (Samples.online, Change id_password (lit "secret"))]
                    (mounted []) in
  let w' := exec (handler Submit) Samples.offline w in
  formValues (state w') = Samples.valid_form /\
  loader (state w') = false /\
  cookieJar w' = [] /\
  firestore w' = [].
Proof.
  intros w w'. unfold w', exec, handler.
  rewrite (handleSubmit_remote_failure (formValues (state w)) Samples.offline w
             Samples.network_down eq_refl eq_refl).
  repeat split.
Defined.

(** C3. When the validator returns a record that is not empty,
    [handleSubmit] stores that record and stops: nothing is sent to the
    remote store and the loading flag is never touched, so it stays false.
    On the form with three empty fields the stored record holds the three
    "required" messages. *)
Theorem handleSubmit_invalid (v : FormValues) (h : Host) (w : World) :
  validateForm v <> Errors.empty ->
  handleSubmit v h w =
  (Returned tt,
   {| state := {| formValues := formValues (state w);
                  errors := validateForm v;
                  loader := loader (state w) |};
      cookieJar := cookieJar w;
      firestore := firestore w;
      trace := trace w ++ [PreventDefault; SetErrors (validateForm v)] |})
  /\ (loader (state w) = false -> loader (state (exec (handleSubmit v) h w)) = false)
  /\ validateForm {| name := lit ""; mobileNumber := lit ""; password := lit "" |}
     = {| Errors.name := Some (lit "Name is required");
          Errors.mobileNumber := Some (lit "Mobile number is required");
          Errors.password := Some (lit "Password is required") |}.
Proof.
  intros Hv. split; [|split].
  - exact (handleSubmit_invalid_run v h w Hv).
  - unfold exec. now rewrite (handleSubmit_invalid_run v h w Hv).
  - reflexivity.
Qed.

(** C3 on the freshly mounted page, its three fields empty. *)
Lemma handleSubmit_invalid_witness :
  exec (handler Submit) Samples.online (mounted []) =
  {| state := {| formValues := Samples.empty_form;
                 errors :=
                   {| Errors.name := Some (lit "Name is required");
                      Errors.mobileNumber := Some (lit "Mobile number is required");
                      Errors.password := Some (lit "Password is required") |};
                 loader := false |};
     cookieJar := []; firestore := [];
     trace := [PreventDefault;
               SetErrors
                 {| Errors.name := Some (lit "Name is required");
                    Errors.mobileNumber := Some (lit "Mobile number is required");
                    Errors.password := Some (lit "Password is required") |}] |}.
Proof.
  unfold exec, handler.
  assert (Hv : validateForm (formValues (state (mounted []))) <> Errors.empty)
    by discriminate.
  rewrite (proj1 (handleSubmit_invalid _ Samples.online (mounted []) Hv)).
  reflexivity.
Defined.

(** C7, as the code has it. After a submit attempt on which validation
    fails, the stored errors are the validator's output for the submitted
    form values, the previous record being overwritten whole. After one
    on which validation passes, the stored errors are what they were
    before. *)
Theorem handleSubmit_errors_state (v : FormValues) (h : Host) (w : World) :
  (validateForm v <> Errors.empty ->
   errors (state (exec (handleSubmit v) h w)) = validateForm v) /\
  (validateForm v = Errors.empty ->
   errors (state (exec (handleSubmit v) h w)) = errors (state w)).
Proof.
  unfold exec. split; intros Hv.
  - now rewrite (handleSubmit_invalid_run v h w Hv).
  - destruct (addDoc_settles h (lit "users") v) as [u|e] eqn:Hs.
    + now rewrite (handleSubmit_fulfilled_run v h w u Hv Hs).
    + now rewrite (handleSubmit_rejected_run v h w e Hv Hs).
Qed.

(** C7 on two submits: of the empty form on the fresh page, and of the
    valid form on the page that still shows the three messages. *)
Lemma handleSubmit_errors_state_witness :
  errors (state (exec (handleSubmit Samples.empty_form) Samples.online (mounted [])))
  = validateForm Samples.empty_form /\
  errors (state (exec (handleSubmit Samples.valid_form) Samples.offline
                   Samples.corrected_after_errors))
  = validateForm Samples.empty_form.
Proof.
  split.
  - apply (proj1 (handleSubmit_errors_state Samples.empty_form Samples.online (mounted []))).
    discriminate.
  - apply (proj2 (handleSubmit_errors_state Samples.valid_form Samples.offline
                    Samples.corrected_after_errors)).
    reflexivity.
Defined.

(** C7 as stated fails: the page shows the three "required" messages of an
    earlier attempt, the fields now hold valid values, and the remote store
    is out of reach. After the submit the page is still there and the
    stored errors are still those three messages, not the empty record the
    validator returns for the submitted values. *)
Lemma handleSubmit_keeps_stale_errors :
  let w := Samples.corrected_after_errors in
  let submitted := formValues (state w) in
  validateForm submitted = Errors.empty /\
  errors (state (exec (handler Submit) Samples.offline w)) <> validateForm submitted /\
  errors (state (exec (handler Submit) Samples.online w)) <> validateForm submitted.
Proof.
  split; [reflexivity | split; discriminate].
Qed.

(** C8. The federated sign-in leaves the component's state alone whatever
    the form holds: it neither consults nor stores a validation result.
    When the popup succeeds it sets the cookie "auth-token" to the refresh
    token the provider returned, with an expiry thirty days from now, and
    then navigates to the landing route. When the popup fails it logs the
    error to the console and does nothing else: no alert, no cookie, no
    navigation. *)
Theorem signInGoogle_paths (h : Host) (w : World) :
  let expiry := thirty_days_later (timeZone h) (TimeClip (clock h)) in
  signInGoogle h w =
  (Returned tt,
   match signInWithPopup_settles h with
   | Fulfilled result =>
       {| state := state w;
          cookieJar :=
            jar_set (lit "auth-token")
              {| value := VString (refreshToken (user result)); expires := Some expiry |}
              (cookieJar w);
          firestore := firestore w;
          trace :=
            trace w ++
            [SignInWithPopup;
             CookiesSet (lit "auth-token") (refreshToken (user result)) expiry;
             RouterPush (lit "/landing")] |}
   | Rejected e =>
       {| state := state w;
          cookieJar := cookieJar w;
          firestore := firestore w;
          trace := trace w ++ [SignInWithPopup; ConsoleError [LogError e]] |}
   end)
  /\ state (exec signInGoogle h w) = state w.
Proof.
  intros expiry. split.
  - apply signInGoogle_run.
  - unfold exec. rewrite signInGoogle_run.
    now destruct (signInWithPopup_settles h).
Qed.

(** C8 on the freshly mounted page, whose empty form would not pass
    validation: the sign-in goes through all the same, and stores no
    error. *)
Lemma signInGoogle_paths_witness :
  exec signInGoogle Samples.online (mounted []) =
  {| state := state (mounted []);
     cookieJar :=
       [(lit "auth-token",
         {| value := VString (lit "AMf-vBx"); expires := Some (Some 1711800000000) |})];
     firestore := [];
     trace := [SignInWithPopup;
               CookiesSet (lit "auth-token") (lit "AMf-vBx") (Some 1711800000000);
               RouterPush (lit "/landing")] |}
  /\ trace (exec signInGoogle Samples.offline (mounted []))
     = [SignInWithPopup; ConsoleError [LogError Samples.popup_closed]].
Proof.
  unfold exec.
  rewrite (proj1 (signInGoogle_paths Samples.online (mounted []))).
  rewrite (proj1 (signInGoogle_paths Samples.offline (mounted []))).
  split; reflexivity.
Defined.

(** C9, as the code has it. The guard that runs when the page is mounted,
    before any interaction has left a trace, navigates to the landing
    route exactly when [cookies.get("auth-token")] gives a truthy value,
    and that navigation is then the page's first and only event. When
    the value read is falsy the guard does nothing. No cookie gives
    [undefined], which is falsy; and of a cookie that is there only the
    value read back counts, not its expiry. *)
Theorem sessionGuard_on_mount (jar : list (jsstring * Cookie)) (h0 : Host) :
  (truthy (authToken jar) = true ->
   sessionGuard h0 (mounted jar) =
   (Returned tt,
    {| state := state (mounted jar); cookieJar := jar; firestore := [];
       trace := [RouterPush (lit "/landing")] |})) /\
  (truthy (authToken jar) = false ->
   sessionGuard h0 (mounted jar) = (Returned tt, mounted jar)) /\
  (~ token_present jar -> truthy (authToken jar) = false) /\
  (forall c, jar_get (lit "auth-token") jar = Some c ->
             truthy (authToken jar) = truthy (value c)).
Proof.
  rewrite sessionGuard_run. cbn [cookieJar mounted].
  split; [|split; [|split]].
  - intros Ht. now rewrite Ht.
  - intros Hf. now rewrite Hf.
  - unfold token_present, authToken. intros Hn.
    destruct (jar_get (lit "auth-token") jar); [|reflexivity].
    exfalso. apply Hn. discriminate.
  - intros c Hj. unfold authToken. now rewrite Hj.
Qed.

(** C9 on a browser that holds a token set long ago, and on one that
    holds none. *)
Lemma sessionGuard_on_mount_witness :
  trace (exec sessionGuard Samples.online (mounted Samples.stale_token_jar))
  = [RouterPush (lit "/landing")] /\
  trace (exec sessionGuard Samples.online (mounted Samples.consent_jar)) = [].
Proof.
  unfold exec. split.
  - rewrite (proj1 (sessionGuard_on_mount Samples.stale_token_jar Samples.online) eq_refl).
    reflexivity.
  - rewrite (proj1 (proj2 (sessionGuard_on_mount Samples.consent_jar Samples.online))
               eq_refl).
    reflexivity.
Defined.

(** C9 as stated fails: the browser holds the cookie [auth-token=], its
    value the empty string, and the guard does not navigate. *)
Lemma sessionGuard_ignores_empty_token :
  token_present Samples.empty_token_jar /\
  trace (exec sessionGuard Samples.online (mounted Samples.empty_token_jar)) = [].
Proof.
  split; [discriminate | reflexivity].
Qed.

End HandlerClaims.

(* ================================================================== *)
(** * The claim about the expense row                                  *)
(* ================================================================== *)

Section ExpenseRowClaims.
Import JS.

(** C10. On every change event the stored selection becomes the
    comma-split of the event value when it is a string, and the value
    itself when it is an array; the result is a list of strings either
    way, and it is all the state the row holds. The split is the one
    [join] undoes: its pieces hold no comma and number one more than the
    commas of the string. *)
Theorem handleChange_selection (value : AddExpense.SelectValue) (st : AddExpense.State) :
  AddExpense.handleChange value st =
  {| AddExpense.personName :=
       match value with
       | AddExpense.AsString s => split s AddExpense.comma
       | AddExpense.AsArray a => a
       end |}
  /\ (forall s, value = AddExpense.AsString s ->
        let pieces := AddExpense.personName (AddExpense.handleChange value st) in
        join AddExpense.comma pieces = s /\
        Forall (fun p => ~ In AddExpense.comma p) pieces /\
        List.length pieces = S (count_occ N.eq_dec s AddExpense.comma))
  /\ (forall a, value = AddExpense.AsArray a ->
        AddExpense.personName (AddExpense.handleChange value st) = a)
  /\ (forall st' : AddExpense.State,
        AddExpense.personName st' = AddExpense.personName st -> st' = st).
Proof.
  split; [reflexivity|]. split; [|split].
  - intros s ->. cbn [AddExpense.handleChange AddExpense.personName].
    unfold split. split; [|split].
    + apply (join_split_go AddExpense.comma [] s).
    + apply split_go_no_sep. intros [].
    + apply split_go_length.
  - intros a ->. reflexivity.
  - intros [p'] E. destruct st as [p]. cbn in E. now subst.
Qed.

(** C10 on an autofilled value and on a picked one. *)
Lemma handleChange_selection_witness :
  AddExpense.personName
    (AddExpense.handleChange (AddExpense.AsString (lit "Van Henry,April Tucker"))
       {| AddExpense.personName := [] |})
  = [lit "Van Henry"; lit "April Tucker"] /\
  AddExpense.personName
    (AddExpense.handleChange (AddExpense.AsArray [lit "Kelly Snyder"])
       {| AddExpense.personName := [lit "Van Henry"] |})
  = [lit "Kelly Snyder"].
Proof.
  split.
  - rewrite (proj1 (handleChange_selection _ _)). reflexivity.
  - apply (proj1 (proj2 (proj2 (handleChange_selection _ _)))). reflexivity.
Defined.

End ExpenseRowClaims.

(* ================================================================== *)
(** * Whole visits: what no sequence of interactions can do            *)
(* ================================================================== *)

Section VisitFacts.
Import JS Login Spec.
Local Open Scope Z_scope.

(** The three ways a submit can go, each with the world it leaves. *)
Lemma submit_cases (h : Host) (w : World) :
  let v := formValues (state w) in
  (validateForm v <> Errors.empty /\
   handler Submit h w =
   (Returned tt,
    {| state := {| formValues := v; errors := validateForm v;
                   loader := loader (state w) |};
       cookieJar := cookieJar w; firestore := firestore w;
       trace := trace w ++ [PreventDefault; SetErrors (validateForm v)] |}))
  \/
  (validateForm v = Errors.empty /\
   handler Submit h w =
   (Returned tt,
    {| state := {| formValues :=
                     {| name := lit ""; mobileNumber := lit ""; password := lit "" |};
                   errors := errors (state w); loader := false |};
       cookieJar :=
         jar_set (lit "auth-token")
           {| value := VString (lit "dummy-auth-token");
              expires := Some (thirty_days_later (timeZone h) (TimeClip (clock h))) |}
           (cookieJar w);
       firestore := firestore w ++ [(lit "users", v)];
       trace :=
         trace w ++
         [PreventDefault; SetLoader true; AddDoc (lit "users") v;
          SetFormValues {| name := lit ""; mobileNumber := lit ""; password := lit "" |};
          CookiesSet (lit "auth-token") (lit "dummy-auth-token")
            (thirty_days_later (timeZone h) (TimeClip (clock h)));
          RouterPush (lit "/landing"); SetLoader false] |}))
  \/
  (validateForm v = Errors.empty /\
   exists e,
     handler Submit h w =
     (Returned tt,
      {| state := {| formValues := v; errors := errors (state w); loader := false |};
         cookieJar := cookieJar w; firestore := firestore w;
         trace :=
           trace w ++
           [PreventDefault; SetLoader true; AddDoc (lit "users") v;
            ConsoleError [LogString (lit "Error adding document: "); LogError e];
            Alert (lit "Error adding document: " ++ toString e);
            SetLoader false] |})).
Proof.
  intros v. unfold handler. fold v.
  destruct (0 <? Z.of_nat (List.length (Errors.keys (validateForm v)))) eqn:G.
  - left. apply guard_true in G. split; [exact G|].
    apply (handleSubmit_invalid_run v h w G).
  - apply guard_false in G.
    destruct (addDoc_settles h (lit "users") v) as [u|e] eqn:S.
    + right; left. split; [exact G|].
      apply (handleSubmit_fulfilled_run v h w u G S).
    + right; right. split; [exact G|]. exists e.
      apply (handleSubmit_rejected_run v h w e G S).
Qed.

Lemma change_run (id : InputId) (x : jsstring) (h : Host) (w : World) :
  handler (Change id x) h w =
  (Returned tt,
   {| state := {| formValues := assign id x (formValues (state w));
                  errors := errors (state w); loader := loader (state w) |};
      cookieJar := cookieJar w; firestore := firestore w;
      trace := trace w ++ [SetFormValues (assign id x (formValues (state w)))] |}).
Proof. run_handler. reflexivity. Qed.

(** A property every handler keeps is kept by every sequence of
    interactions. *)
Lemma interact_keeps (P : World -> Prop) :
  (forall i h w, P w -> P (exec (handler i) h w)) ->
  forall steps w, P w -> P (interact steps w).
Proof.
  intros Hstep steps; induction steps as [|[h i] steps IH]; intros w Hw; simpl.
  - exact Hw.
  - apply IH, Hstep, Hw.
Qed.

End VisitFacts.

(** The world after one interaction, case by case. *)
Ltac handler_cases i h w :=
  unfold Login.exec;
  destruct i as [?id ?x | | ];
  [ rewrite (change_run _ _ h w)
  | destruct (submit_cases h w) as [[?Hv ->] | [[?Hv ->] | [?Hv [?e ->]]]]
  | change (Login.handler Login.ClickGoogle h w) with (Login.signInGoogle h w);
    rewrite (signInGoogle_run h w);
    destruct (Login.signInWithPopup_settles h) as [?result | ?e] ];
  cbn [snd Login.state Login.trace Login.cookieJar Login.firestore
       Login.formValues Login.errors Login.loader].

Section VisitInvariants.
Import JS Login Spec.
Local Open Scope Z_scope.

Lemma handler_returns (i : Interaction) (h : Host) (w : World) :
  fst (handler i h w) = Returned tt.
Proof.
  destruct i as [id x | | ].
  - now rewrite change_run.
  - destruct (submit_cases h w) as [[_ ->] | [[_ ->] | [_ [e ->]]]]; reflexivity.
  - change (handler ClickGoogle h w) with (signInGoogle h w).
    now rewrite signInGoogle_run.
Qed.

Lemma handler_keeps_loader_false (i : Interaction) (h : Host) (w : World) :
  loader (state w) = false -> loader (state (exec (handler i) h w)) = false.
Proof. intros Hl. handler_cases i h w; auto. Qed.

Lemma handler_keeps_errors_set (i : Interaction) (h : Host) (w : World) :
  errors (state w) <> Errors.empty ->
  errors (state (exec (handler i) h w)) <> Errors.empty.
Proof. intros He. handler_cases i h w; auto. Qed.

Lemma handler_keeps_store_valid (i : Interaction) (h : Host) (w : World) :
  Forall valid_user_document (firestore w) ->
  Forall valid_user_document (firestore (exec (handler i) h w)).
Proof.
  intros Hf. handler_cases i h w; auto.
  apply Forall_app; split; [exact Hf|].
  constructor; [|constructor]. now split.
Qed.

Lemma documents_sent_app (a b : list Event) :
  documents_sent (a ++ b) = documents_sent a ++ documents_sent b.
Proof.
  induction a as [|e a IH]; [reflexivity|].
  destruct e; simpl; now rewrite IH.
Qed.

Lemma handler_sends_valid (i : Interaction) (h : Host) (w : World) :
  Forall valid_user_document (documents_sent (trace w)) ->
  Forall valid_user_document (documents_sent (trace (exec (handler i) h w))).
Proof.
  intros Hf. handler_cases i h w; rewrite documents_sent_app;
    apply Forall_app; (split; [exact Hf|]); cbn [documents_sent];
    repeat first [apply Forall_nil | apply Forall_cons];
    (split; [reflexivity | assumption]).
Qed.

Lemma jar_get_set_other (k k' : jsstring) (c : Cookie) (jar : list (jsstring * Cookie)) :
  k' <> k -> jar_get k' (jar_set k c jar) = jar_get k' jar.
Proof.
  intros Hk.
  assert (Hkk : JS.eqb k' k = false).
  { destruct (JS.eqb k' k) eqn:E; [apply eqb_eq in E; contradiction | reflexivity]. }
  induction jar as [|[k0 c0] jar IH]; simpl.
  - now rewrite Hkk.
  - destruct (JS.eqb k k0) eqn:E; simpl.
    + apply eqb_eq in E; subst k0. now rewrite Hkk.
    + now rewrite IH.
Qed.

Lemma handler_keeps_other_cookies (k : jsstring) (i : Interaction) (h : Host) (w : World) :
  k <> lit "auth-token" ->
  jar_get k (cookieJar (exec (handler i) h w)) = jar_get k (cookieJar w).
Proof.
  intros Hk. handler_cases i h w; auto; now apply jar_get_set_other.
Qed.

End VisitInvariants.

Section VisitProperties.
Import JS Login Spec.
Local Open Scope Z_scope.

(** The guard on a fresh page changes nothing but the trace. *)
Lemma sessionGuard_mounted (jar : list (jsstring * Cookie)) (h0 : Host) :
  let w := exec sessionGuard h0 (mounted jar) in
  state w = state (mounted jar) /\ cookieJar w = jar /\ firestore w = [] /\
  (trace w = [] \/ trace w = [RouterPush (lit "/landing")]).
Proof.
  unfold exec. rewrite sessionGuard_run. cbn [snd mounted cookieJar].
  destruct (truthy (authToken jar)); cbn; auto.
Qed.

(** A rejected remote call does not get out of its handler: when [addDoc]
    or [signInWithPopup] rejects with an error object, [handleSubmit] and
    [signInGoogle] catch it and return normally, as they do when the call
    is fulfilled or not made; [handleChange] makes no such call. The state
    setters, the cookie write, the router and the dialogs are taken to
    return normally. *)
Theorem handlers_never_throw (v : FormValues) (i : Interaction) (h : Host) (w : World) :
  fst (handleSubmit v h w) = Returned tt /\
  fst (signInGoogle h w) = Returned tt /\
  fst (handler i h w) = Returned tt.
Proof.
  split; [|split].
  - destruct (0 <? Z.of_nat (List.length (Errors.keys (validateForm v)))) eqn:G.
    + apply guard_true in G. now rewrite (handleSubmit_invalid_run v h w G).
    + apply guard_false in G.
      destruct (addDoc_settles h (lit "users") v) as [u|e] eqn:S.
      * now rewrite (handleSubmit_fulfilled_run v h w u G S).
      * now rewrite (handleSubmit_rejected_run v h w e G S).
  - now rewrite signInGoogle_run.
  - apply handler_returns.
Qed.

(** Once the handlers have settled the loading flag is down: no sequence
    of keystrokes, submits and sign-ins, however the remote calls go,
    leaves the page with the spinner on. *)
Theorem loader_down_after_visit
  (jar : list (jsstring * Cookie)) (h0 : Host) (steps : list (Host * Interaction)) :
  loader (state (visit jar h0 steps)) = false.
Proof.
  unfold visit.
  apply (interact_keeps (fun w => loader (state w) = false)).
  - intros i h w. apply handler_keeps_loader_false.
  - destruct (sessionGuard_mounted jar h0) as (-> & _). reflexivity.
Qed.

(** Nothing reaches the remote store unvalidated: in the course of any
    visit, every document sent, stored or refused, is for the "users"
    collection and passes the validator. *)
Theorem only_valid_documents_sent
  (jar : list (jsstring * Cookie)) (h0 : Host) (steps : list (Host * Interaction)) :
  Forall valid_user_document (firestore (visit jar h0 steps)) /\
  Forall valid_user_document (documents_sent (trace (visit jar h0 steps))).
Proof.
  unfold visit. destruct (sessionGuard_mounted jar h0) as (_ & _ & Hf & Ht).
  split.
  - apply (interact_keeps (fun w => Forall valid_user_document (firestore w))).
    + intros i h w. apply handler_keeps_store_valid.
    + rewrite Hf. constructor.
  - apply (interact_keeps
             (fun w => Forall valid_user_document (documents_sent (trace w)))).
    + intros i h w. apply handler_sends_valid.
    + destruct Ht as [-> | ->]; constructor.
Qed.

(** Stored errors are never cleared: once a submit has stored messages, no
    later keystroke, submit or sign-in on the page empties the record. *)
Theorem errors_never_cleared (steps : list (Host * Interaction)) (w : World) :
  errors (state w) <> Errors.empty ->
  errors (state (interact steps w)) <> Errors.empty.
Proof.
  apply (interact_keeps (fun w => errors (state w) <> Errors.empty)).
  intros i h w'. apply handler_keeps_errors_set.
Qed.

(** The page that shows three messages still holds a record after the
    fields are retyped and the form is sent with success. *)
Lemma errors_never_cleared_witness :
  errors (state (interact (Samples.typing_valid_form ++ [(Samples.online, Submit)])
                   Samples.corrected_after_errors))
  <> Errors.empty.
Proof.
  apply (errors_never_cleared _ Samples.corrected_after_errors).
  discriminate.
Defined.

(** The page writes one cookie only: whatever happens on it, every cookie
    of another name reads back as before. *)
Theorem other_cookies_untouched
  (k : jsstring) (steps : list (Host * Interaction)) (w : World) :
  k <> lit "auth-token" ->
  jar_get k (cookieJar (interact steps w)) = jar_get k (cookieJar w).
Proof.
  intros Hk.
  apply (interact_keeps (fun w' => jar_get k (cookieJar w') = jar_get k (cookieJar w))).
  - intros i h w' E. rewrite <- E. now apply handler_keeps_other_cookies.
  - reflexivity.
Qed.

(** A browser's consent cookie survives a sign-in and a submit. *)
Lemma other_cookies_untouched_witness :
  jar_get (lit "consent")
    (cookieJar (interact ((Samples.online, ClickGoogle)
                            :: Samples.typing_valid_form ++ [(Samples.online, Submit)])
                  (mounted Samples.consent_jar)))
  = Some {| value := VString (lit "yes"); expires := None |}.
Proof.
  rewrite (other_cookies_untouched (lit "consent") _ (mounted Samples.consent_jar)).
  - reflexivity.
  - discriminate.
Defined.

Lemma field_assign (id id' : InputId) (x : jsstring) (v : FormValues) :
  field id (assign id' x v) = if same_input id id' then x else field id v.
Proof. destruct id, id'; reflexivity. Qed.

(** Keystrokes are last-write-wins per input and touch nothing else: after
    any run of changes each field holds what was typed last into its own
    input, or what it held when nothing was, and the stored errors, the
    loading flag, the cookies and the remote store are as before. *)
Theorem typing_last_write_wins (steps : list (Host * Interaction)) (w : World) :
  Forall is_change steps ->
  (forall id, field id (formValues (state (interact steps w)))
              = last_typed id steps (field id (formValues (state w)))) /\
  errors (state (interact steps w)) = errors (state w) /\
  loader (state (interact steps w)) = loader (state w) /\
  cookieJar (interact steps w) = cookieJar w /\
  firestore (interact steps w) = firestore w.
Proof.
  intros Hc. revert w. induction Hc as [|[h i] steps Hi _ IH]; intros w.
  - cbn. auto.
  - destruct i as [id' x | | ]; try contradiction.
    cbn [interact last_typed]. unfold exec. rewrite change_run. cbn [snd].
    destruct (IH {| state := {| formValues := assign id' x (formValues (state w));
                                errors := errors (state w);
                                loader := loader (state w) |};
                    cookieJar := cookieJar w; firestore := firestore w;
                    trace := trace w ++ [SetFormValues (assign id' x (formValues (state w)))] |})
      as (Hf & He & Hl & Hj & Hs).
    cbn [state formValues errors loader cookieJar firestore] in *.
    repeat split; auto.
    intros id. rewrite Hf. now rewrite field_assign.
Qed.

(** Typing "Ash", a mobile number, then "Asha": the form holds "Asha". *)
Lemma typing_last_write_wins_witness :
  formValues (state (interact Samples.typing_valid_form (mounted [])))
  = Samples.valid_form.
Proof.
  pose proof (typing_last_write_wins Samples.typing_valid_form (mounted [])) as H.
  assert (Hc : Forall is_change Samples.typing_valid_form)
    by (repeat constructor).
  destruct (H Hc) as (Hf & _).
  pose proof (Hf id_name) as Hn.
  pose proof (Hf id_mobileNumber) as Hm.
  pose proof (Hf id_password) as Hp.
  cbn [field] in Hn, Hm, Hp.
  destruct (formValues (state (interact Samples.typing_valid_form (mounted []))))
    as [n m p].
  cbn [name mobileNumber password] in Hn, Hm, Hp.
  rewrite Hn, Hm, Hp. reflexivity.
Defined.

End VisitProperties.

Section SubmitSequences.
Import JS Login Spec.
Local Open Scope Z_scope.

Lemma submit_invalid_exec (h : Host) (w : World) :
  validateForm (formValues (state w)) <> Errors.empty ->
  exec (handler Submit) h w =
  {| state := {| formValues := formValues (state w);
                 errors := validateForm (formValues (state w));
                 loader := loader (state w) |};
     cookieJar := cookieJar w; firestore := firestore w;
     trace := trace w ++ [PreventDefault; SetErrors (validateForm (formValues (state w)))] |}.
Proof.
  intros Hv. unfold exec, handler. now rewrite (handleSubmit_invalid_run _ h w Hv).
Qed.

Lemma submit_fulfilled_exec (h : Host) (w : World) :
  validateForm (formValues (state w)) = Errors.empty ->
  addDoc_settles h (lit "users") (formValues (state w)) = Fulfilled tt ->
  exec (handler Submit) h w =
  {| state := {| formValues :=
                   {| name := lit ""; mobileNumber := lit ""; password := lit "" |};
                 errors := errors (state w); loader := false |};
     cookieJar :=
       jar_set (lit "auth-token")
         {| value := VString (lit "dummy-auth-token");
            expires := Some (thirty_days_later (timeZone h) (TimeClip (clock h))) |}
         (cookieJar w);
     firestore := firestore w ++ [(lit "users", formValues (state w))];
     trace :=
       trace w ++
       [PreventDefault; SetLoader true; AddDoc (lit "users") (formValues (state w));
        SetFormValues {| name := lit ""; mobileNumber := lit ""; password := lit "" |};
        CookiesSet (lit "auth-token") (lit "dummy-auth-token")
          (thirty_days_later (timeZone h) (TimeClip (clock h)));
        RouterPush (lit "/landing"); SetLoader false] |}.
Proof.
  intros Hv Hs. unfold exec, handler.
  now rewrite (handleSubmit_fulfilled_run _ h w tt Hv Hs).
Qed.

Lemma submit_rejected_exec (h : Host) (w : World) (e : exn) :
  validateForm (formValues (state w)) = Errors.empty ->
  addDoc_settles h (lit "users") (formValues (state w)) = Rejected e ->
  exec (handler Submit) h w =
  {| state := {| formValues := formValues (state w);
                 errors := errors (state w); loader := false |};
     cookieJar := cookieJar w; firestore := firestore w;
     trace :=
       trace w ++
       [PreventDefault; SetLoader true; AddDoc (lit "users") (formValues (state w));
        ConsoleError [LogString (lit "Error adding document: "); LogError e];
        Alert (lit "Error adding document: " ++ toString e);
        SetLoader false] |}.
Proof.
  intros Hv Hs. unfold exec, handler.
  now rewrite (handleSubmit_rejected_run _ h w e Hv Hs).
Qed.

(** Among the calls one handler makes, the session cookie is written
    only when the handler's awaited remote call was fulfilled; the write
    names "auth-token" and the very next call is the navigation to the
    landing route; and no handler, nor the guard, navigates anywhere
    else. *)
Theorem cookie_only_on_success_then_landing (i : Interaction) (h : Host) (w : World) :
  (exists events,
     trace (exec (handler i) h w) = trace w ++ events /\
     cookie_then_landing events /\
     (forall k x d, In (CookiesSet k x d) events ->
        (i = Submit /\
         addDoc_settles h (lit "users") (formValues (state w)) = Fulfilled tt) \/
        (i = ClickGoogle /\
         exists result, signInWithPopup_settles h = Fulfilled result))) /\
  (exists events,
     trace (exec sessionGuard h w) = trace w ++ events /\
     cookie_then_landing events /\
     forall k x d, ~ In (CookiesSet k x d) events).
Proof.
  split.
  - destruct i as [id x | | ].
    + unfold exec. rewrite change_run. cbn [snd trace].
      eexists; split; [reflexivity|]. split; [exact I|].
      intros k y d [H|[]]; discriminate H.
    + destruct (0 <? Z.of_nat (List.length
                  (Errors.keys (validateForm (formValues (state w)))))) eqn:G.
      * apply guard_true in G. rewrite (submit_invalid_exec h w G). cbn [trace].
        eexists; split; [reflexivity|]. split; [exact I|].
        intros k y d [H|[H|[]]]; discriminate H.
      * apply guard_false in G.
        destruct (addDoc_settles h (lit "users") (formValues (state w)))
          as [[]|e] eqn:S.
        -- rewrite (submit_fulfilled_exec h w G S). cbn [trace].
           eexists; split; [reflexivity|]. split.
           ++ cbn [cookie_then_landing]. repeat split.
           ++ intros k y d _. left. now split.
        -- rewrite (submit_rejected_exec h w e G S). cbn [trace].
           eexists; split; [reflexivity|]. split; [exact I|].
           intros k y d H. cbn [In] in H.
           repeat (destruct H as [H|H]; [discriminate H|]). contradiction.
    + unfold exec. change (handler ClickGoogle h w) with (signInGoogle h w).
      rewrite signInGoogle_run.
      destruct (signInWithPopup_settles h) as [result|e] eqn:S; cbn [snd trace].
      * eexists; split; [reflexivity|]. split.
        -- cbn [cookie_then_landing]. repeat split.
        -- intros k y d _. right. split; [reflexivity|]. now exists result.
      * eexists; split; [reflexivity|]. split; [exact I|].
        intros k y d [H|[H|[]]]; discriminate H.
  - unfold exec. rewrite sessionGuard_run. cbn [snd].
    destruct (truthy (authToken (cookieJar w))); cbn [trace].
    + eexists; split; [reflexivity|]. split; [cbn; auto|].
      intros k y d [H|[]]; discriminate H.
    + exists []. split; [now rewrite app_nil_r|]. split; [exact I|].
      intros k y d [].
Qed.

(** A failed remote write can be retried as it stands: the form is still
    filled in, and a second submit that gets through stores the very
    document the first one failed to. *)
Theorem retry_after_remote_failure (h1 h2 : Host) (w : World) (e : exn) :
  validateForm (formValues (state w)) = Errors.empty ->
  addDoc_settles h1 (lit "users") (formValues (state w)) = Rejected e ->
  addDoc_settles h2 (lit "users") (formValues (state w)) = Fulfilled tt ->
  firestore (interact [(h1, Submit); (h2, Submit)] w)
  = firestore w ++ [(lit "users", formValues (state w))] /\
  documents_sent (trace (interact [(h1, Submit); (h2, Submit)] w))
  = documents_sent (trace w)
    ++ [(lit "users", formValues (state w)); (lit "users", formValues (state w))].
Proof.
  intros Hv H1 H2. cbn [interact].
  rewrite (submit_rejected_exec h1 w e Hv H1).
  rewrite submit_fulfilled_exec by (cbn [state formValues]; assumption).
  cbn [state formValues firestore trace]. split; [reflexivity|].
  rewrite !documents_sent_app. cbn [documents_sent]. now rewrite <- app_assoc.
Qed.

(** Offline, then online: the sample form is stored once, after two
    attempts. *)
Lemma retry_after_remote_failure_witness :
  let w := interact Samples.typing_valid_form (mounted []) in
  firestore (interact [(Samples.offline, Submit); (Samples.online, Submit)] w)
  = [(lit "users", Samples.valid_form)].
Proof.
  intros w.
  apply (proj1 (retry_after_remote_failure Samples.offline Samples.online w
                  Samples.network_down eq_refl eq_refl eq_refl)).
Defined.

(** Once a successful submit has settled, sending the form again repeats
    nothing: the fields were cleared, so the second attempt fails
    validation with the three "required" messages and sends nothing. (A
    second submit started while the first still awaits the remote write
    is another matter, and not covered.) *)
Theorem resubmit_after_success (h1 h2 : Host) (w : World) :
  validateForm (formValues (state w)) = Errors.empty ->
  addDoc_settles h1 (lit "users") (formValues (state w)) = Fulfilled tt ->
  firestore (interact [(h1, Submit); (h2, Submit)] w)
  = firestore w ++ [(lit "users", formValues (state w))] /\
  documents_sent (trace (interact [(h1, Submit); (h2, Submit)] w))
  = documents_sent (trace w) ++ [(lit "users", formValues (state w))] /\
  errors (state (interact [(h1, Submit); (h2, Submit)] w))
  = {| Errors.name := Some (lit "Name is required");
       Errors.mobileNumber := Some (lit "Mobile number is required");
       Errors.password := Some (lit "Password is required") |}.
Proof.
  intros Hv H1. cbn [interact].
  rewrite (submit_fulfilled_exec h1 w Hv H1).
  rewrite submit_invalid_exec by (cbn [state formValues]; discriminate).
  cbn [state formValues errors firestore trace]. split; [reflexivity|]. split.
  - rewrite !documents_sent_app. cbn [documents_sent].
    now rewrite app_nil_r.
  - reflexivity.
Qed.

(** Two clicks on the submit button of the filled-in sample form: one
    document. *)
Lemma resubmit_after_success_witness :
  let w := interact Samples.typing_valid_form (mounted []) in
  firestore (interact [(Samples.online, Submit); (Samples.online, Submit)] w)
  = [(lit "users", Samples.valid_form)].
Proof.
  intros w.
  apply (proj1 (resubmit_after_success Samples.online Samples.online w
                  eq_refl eq_refl)).
Defined.

(** A visitor who joined with the form is let through on the next visit:
    in a browser that kept the cookies of a successful submit, the guard
    of a freshly mounted page navigates to the landing route. *)
Theorem submit_then_guard_navigates (v : FormValues) (h h' : Host) (w : World) :
  validateForm v = Errors.empty ->
  addDoc_settles h (lit "users") v = Fulfilled tt ->
  trace (exec sessionGuard h' (mounted (cookieJar (exec (handleSubmit v) h w))))
  = [RouterPush (lit "/landing")].
Proof.
  intros Hv Hs. unfold exec.
  rewrite (handleSubmit_fulfilled_run v h w tt Hv Hs). cbn [snd cookieJar].
  rewrite sessionGuard_run. cbn [snd mounted cookieJar].
  unfold authToken. rewrite jar_get_set. reflexivity.
Qed.

Lemma submit_then_guard_navigates_witness :
  trace (exec sessionGuard Samples.offline
           (mounted (cookieJar (exec (handleSubmit Samples.valid_form) Samples.online
                                  (mounted Samples.consent_jar)))))
  = [RouterPush (lit "/landing")].
Proof.
  apply (submit_then_guard_navigates Samples.valid_form Samples.online Samples.offline
           (mounted Samples.consent_jar) eq_refl eq_refl).
Defined.



End SubmitSequences.

Section ValidatorEdges.
Import JS Login Spec.
Local Open Scope Z_scope.

Lemma digit_not_space (c : code_unit) : isDigit c = true -> isWhiteSpace c = false.
Proof.
  unfold isDigit, isWhiteSpace. intros H.
  apply andb_prop in H as [H1 H2]. apply N.leb_le in H1, H2.
  repeat (apply orb_false_intro);
    repeat match goal with
           | |- (_ && _)%bool = false => apply andb_false_iff
           | |- (_ =? _)%N = false => apply N.eqb_neq; lia
           end;
    first [left; apply N.leb_gt; lia | right; apply N.leb_gt; lia].
Qed.

Lemma blank_digits_nil (s : jsstring) :
  blank s -> Forall (fun c => isDigit c = true) s -> s = [].
Proof.
  destruct s as [|c s]; [reflexivity|].
  intros Hb Hd. inversion Hb as [|? ? Hw _]; inversion Hd as [|? ? Hc _]; subst.
  apply digit_not_space in Hc. congruence.
Qed.

(** The mobile number is tested as typed, not as trimmed: ten digits with
    white space before or after them are not blank, so they get the "must
    be 10 digits" message; and a mobile number that passes has no white
    space to trim. *)
Theorem padded_mobileNumber_rejected (v : FormValues) :
  (exactly_ten_digits (trim (mobileNumber v)) ->
   mobileNumber v <> trim (mobileNumber v) ->
   Errors.mobileNumber (validateForm v) = Some (lit "Mobile number must be 10 digits")) /\
  (Errors.mobileNumber (validateForm v) = None ->
   trim (mobileNumber v) = mobileNumber v).
Proof.
  destruct (trim_split (mobileNumber v)) as (pre & post & Hs & Hpre & Hpost & _).
  split.
  - intros Ht Hne. rewrite validateForm_mobileNumber_entry.
    assert (Hnb : trim (mobileNumber v) <> []).
    { destruct Ht as [Hlt _]. intros E. rewrite E in Hlt. discriminate. }
    rewrite (proj2 (truthy_trim_true _) Hnb).
    assert (Hp : test mobileNumber_pattern (mobileNumber v) = false).
    { apply test_mobileNumber_pattern_false. intros [Hl _].
      destruct Ht as [Hlt _]. apply Hne.
      pose proof (f_equal (@List.length _) Hs) as Hlen.
      rewrite !length_app in Hlen.
      destruct pre; destruct post; cbn in Hlen; try lia.
      cbn in Hs. now rewrite app_nil_r in Hs. }
    now rewrite Hp.
  - intros Hnone.
    assert (Hd : exactly_ten_digits (mobileNumber v)).
    { pose proof (mobileNumber_entry_iff v) as Hiff.
      destruct (test mobileNumber_pattern (mobileNumber v)) eqn:Hp.
      - now apply test_mobileNumber_pattern.
      - exfalso. apply test_mobileNumber_pattern_false in Hp.
        apply (proj2 Hiff); [right; exact Hp | exact Hnone]. }
    destruct Hd as [_ Hd]. rewrite Hs in Hd.
    apply Forall_app in Hd as [Hd1 Hd2]. apply Forall_app in Hd2 as [_ Hd3].
    rewrite (blank_digits_nil pre Hpre Hd1) in Hs.
    rewrite (blank_digits_nil post Hpost Hd3) in Hs.
    cbn in Hs. rewrite app_nil_r in Hs. now symmetry.
Qed.

(** The number with a space before it is refused as not ten digits; the
    same number alone passes and is its own trim. *)
Lemma padded_mobileNumber_rejected_witness :
  Errors.mobileNumber (validateForm (Samples.with_mobileNumber " 5551234567"))
  = Some (lit "Mobile number must be 10 digits") /\
  trim (lit "5551234567") = lit "5551234567".
Proof.
  split.
  - apply (proj1 (padded_mobileNumber_rejected (Samples.with_mobileNumber " 5551234567"))).
    + split; [reflexivity | repeat constructor].
    + discriminate.
  - apply (proj2 (padded_mobileNumber_rejected (Samples.with_mobileNumber "5551234567"))).
    reflexivity.
Defined.

End ValidatorEdges.

Section CookieLifetime.
Import JS Login Spec.
Local Open Scope Z_scope.

Lemma thirty_days_later_bounds (tz : TimeZone) (t drift : Z) :
  Z.abs t <= 8640000000000000 - 31 * msPerDay ->
  0 <= drift <= msPerDay ->
  (forall a b, Z.abs (offsetAtUTC tz a - offsetAtLocal tz b) <= drift) ->
  exists e,
    thirty_days_later tz (TimeClip t) = Some e /\
    t + 30 * msPerDay - drift <= e <= t + 30 * msPerDay + drift.
Proof.
  intros Ht Hd Hz. unfold TimeClip at 1. unfold msPerDay in *.
  destruct (8640000000000000 <? Z.abs t) eqn:E; [apply Z.ltb_lt in E; lia|].
  unfold thirty_days_later, UTC, LocalTime, TimeClip, msPerDay.
  specialize (Hz t (t + offsetAtUTC tz t + 30 * 86400000)).
  set (u := offsetAtUTC tz t) in *.
  set (l := offsetAtLocal tz (t + u + 30 * 86400000)) in *.
  destruct (8640000000000000 <? Z.abs (t + u + 30 * 86400000 - l)) eqn:E';
    [apply Z.ltb_lt in E'; lia|].
  eexists; split; [reflexivity|]. lia.
Qed.

(** The session cookie of a successful submit lives thirty days, give or
    take what the zone's offset changes by: with the clock at least
    thirty-one days from the end of the time range, the expiry is a valid
    date within [drift] of the clock plus thirty times twenty-four hours,
    whatever month lengths lie between. *)
Theorem session_cookie_lifetime (v : FormValues) (h : Host) (w : World) (drift : Z) :
  validateForm v = Errors.empty ->
  addDoc_settles h (lit "users") v = Fulfilled tt ->
  Z.abs (clock h) <= 8640000000000000 - 31 * msPerDay ->
  0 <= drift <= msPerDay ->
  (forall a b,
     Z.abs (offsetAtUTC (timeZone h) a - offsetAtLocal (timeZone h) b) <= drift) ->
  exists e,
    jar_get (lit "auth-token") (cookieJar (exec (handleSubmit v) h w))
    = Some {| value := VString (lit "dummy-auth-token"); expires := Some (Some e) |} /\
    clock h + 30 * msPerDay - drift <= e <= clock h + 30 * msPerDay + drift.
Proof.
  intros Hv Hs Hc Hd Hz. unfold exec.
  rewrite (handleSubmit_fulfilled_run v h w tt Hv Hs). cbn [snd cookieJar].
  rewrite jar_get_set.
  destruct (thirty_days_later_bounds (timeZone h) (clock h) drift Hc Hd Hz)
    as (e & -> & He).
  now exists e.
Qed.

(** Noon on 29 February 2024 in a zone that is an hour ahead now and on
    UTC a month on: the cookie runs out at one o'clock UTC on 30 March,
    thirty days and an hour later. *)
Lemma session_cookie_lifetime_witness :
  let h := {| timeZone := Samples.summer_then_winter; clock := Samples.noon;
              addDoc_settles := fun _ _ => Fulfilled tt;
              signInWithPopup_settles := Rejected Samples.popup_closed |} in
  exists e,
    jar_get (lit "auth-token")
      (cookieJar (exec (handleSubmit Samples.valid_form) h (mounted [])))
    = Some {| value := VString (lit "dummy-auth-token"); expires := Some (Some e) |} /\
    Samples.noon + 30 * msPerDay - 3600000 <= e <= Samples.noon + 30 * msPerDay + 3600000.
Proof.
  intros h.
  apply (session_cookie_lifetime Samples.valid_form h (mounted []) 3600000).
  - reflexivity.
  - reflexivity.
  - vm_compute. discriminate.
  - vm_compute. split; discriminate.
  - intros a b. vm_compute. discriminate.
Defined.

End CookieLifetime.

Section PageView.
Import JS Login Spec.
Local Open Scope Z_scope.

(** Every message the validator sets is a non-empty string, so the markup
    shows it. *)
Lemma validateForm_messages_shown (v : FormValues) :
  paragraph_if (Errors.name (validateForm v)) = Errors.name (validateForm v) /\
  paragraph_if (Errors.mobileNumber (validateForm v))
  = Errors.mobileNumber (validateForm v) /\
  paragraph_if (Errors.password (validateForm v)) = Errors.password (validateForm v).
Proof.
  rewrite validateForm_name_entry, validateForm_mobileNumber_entry,
    validateForm_password_entry.
  destruct (truthy_string (trim (name v))),
           (truthy_string (trim (mobileNumber v))),
           (test mobileNumber_pattern (mobileNumber v)),
           (truthy_string (trim (password v))),
           (JS.length (password v) <? 6); repeat split.
Qed.

Lemma handler_keeps_in_step (i : Interaction) (h : Host) (w : World) :
  in_step w -> in_step (exec (handler i) h w).
Proof.
  unfold in_step. intros (Hl & Hn & Hm & Hp).
  handler_cases i h w; auto.
  split; [assumption | apply validateForm_messages_shown].
Qed.

(** On every page a visit can reach, once the handlers have settled, the
    message shown under a field is exactly the one stored for it, and the
    submit button is enabled and reads "Join Room". *)
Theorem page_shows_stored_messages
  (jar : list (jsstring * Cookie)) (h0 : Host) (steps : list (Host * Interaction)) :
  let s := state (visit jar h0 steps) in
  name_message (render s) = Errors.name (errors s) /\
  mobileNumber_message (render s) = Errors.mobileNumber (errors s) /\
  password_message (render s) = Errors.password (errors s) /\
  submit_disabled (render s) = false /\
  submit_content (render s) = Text (lit "Join Room").
Proof.
  intros s.
  assert (H : in_step (visit jar h0 steps)).
  { unfold visit. apply (interact_keeps in_step).
    - intros i h w. apply handler_keeps_in_step.
    - unfold in_step. destruct (sessionGuard_mounted jar h0) as (-> & _).
      cbn. auto. }
  destruct H as (Hl & Hn & Hm & Hp). fold s in Hl, Hn, Hm, Hp.
  unfold render. cbn [name_message mobileNumber_message password_message
                      submit_disabled submit_content].
  rewrite Hl. auto.
Qed.

End PageView.

(* ================================================================== *)
(** * The expense row: styles, menu and autofill                       *)
(* ================================================================== *)

Section ExpenseRowProperties.
Import JS.

Lemma indexOf_from_absent (a : list jsstring) (x : jsstring) (k : Z) :
  (0 <= k)%Z -> (indexOf_from a x k = -1)%Z <-> ~ In x a.
Proof.
  revert k; induction a as [|y a IH]; intros k Hk; simpl.
  - split; [intros _ [] | reflexivity].
  - destruct (JS.eqb y x) eqn:E.
    + apply eqb_eq in E; subst y. split; [lia | intros H; exfalso; apply H; now left].
    + rewrite IH by lia. split.
      * intros Hn [->|Hin]; [now rewrite eqb_refl in E | contradiction].
      * intros Hn Hin. apply Hn. now right.
Qed.

(** Where [indexOf] finds the element it is the first place that holds
    it. *)
Lemma indexOf_from_found (a : list jsstring) (x : jsstring) (k : Z) :
  In x a ->
  exists n : nat,
    indexOf_from a x k = (k + Z.of_nat n)%Z /\
    nth_error a n = Some x /\
    forall m, (m < n)%nat -> nth_error a m <> Some x.
Proof.
  revert k; induction a as [|y a IH]; intros k Hin; [contradiction|]. simpl.
  destruct (JS.eqb y x) eqn:E.
  - apply eqb_eq in E; subst y. exists 0%nat. repeat split; [lia | intros m Hm; lia].
  - destruct Hin as [->|Hin]; [now rewrite eqb_refl in E|].
    destruct (IH (k + 1)%Z Hin) as (n & Hi & Hn & Hfirst).
    exists (S n). repeat split; [lia | exact Hn |].
    intros [|m] Hm; simpl.
    + intros [= ->]. now rewrite eqb_refl in E.
    + apply Hfirst. lia.
Qed.

(** [getStyles] gives a name the medium weight exactly when it is among
    the selected ones, and the regular weight otherwise. *)
Theorem getStyles_marks_selected
  (name : jsstring) (personName : list jsstring) (theme : AddExpense.Theme) :
  (In name personName ->
   AddExpense.fontWeight (AddExpense.getStyles name personName theme)
   = AddExpense.fontWeightMedium (AddExpense.typography theme)) /\
  (~ In name personName ->
   AddExpense.fontWeight (AddExpense.getStyles name personName theme)
   = AddExpense.fontWeightRegular (AddExpense.typography theme)).
Proof.
  unfold AddExpense.getStyles, indexOf. cbn [AddExpense.fontWeight].
  split; intros H.
  - destruct (indexOf_from_found personName name 0 H) as (n & -> & _).
    destruct (0 + Z.of_nat n =? -1)%Z eqn:E; [apply Z.eqb_eq in E; lia | reflexivity].
  - apply (indexOf_from_absent personName name 0) in H; [|lia].
    now rewrite H.
Qed.

(** With two names picked, a picked one is medium and another regular. *)
Lemma getStyles_marks_selected_witness :
  let picked := [lit "Van Henry"; lit "Kelly Snyder"] in
  AddExpense.fontWeight (AddExpense.getStyles (lit "Kelly Snyder") picked Samples.default_theme)
  = VNumber 500 /\
  AddExpense.fontWeight (AddExpense.getStyles (lit "Omar Alexander") picked Samples.default_theme)
  = VNumber 400.
Proof.
  intros picked. split.
  - apply (proj1 (getStyles_marks_selected (lit "Kelly Snyder") picked Samples.default_theme)).
    right; left; reflexivity.
  - apply (proj2 (getStyles_marks_selected (lit "Omar Alexander") picked Samples.default_theme)).
    cbn. intuition discriminate.
Defined.

Lemma names_comma_free : Forall (fun p => ~ In AddExpense.comma p) AddExpense.names.
Proof.
  unfold AddExpense.names.
  repeat (apply Forall_cons; [vm_compute; intuition discriminate|]).
  apply Forall_nil.
Qed.

Lemma split_go_last (sep : code_unit) (cur p : jsstring) :
  ~ In sep p -> split_go sep cur p = [rev cur ++ p].
Proof.
  revert cur; induction p as [|c p IH]; intros cur Hp; simpl.
  - now rewrite app_nil_r.
  - destruct (N.eqb c sep) eqn:E.
    + apply N.eqb_eq in E; subst c. exfalso. apply Hp. now left.
    + rewrite IH by (intros H; apply Hp; now right).
      simpl. now rewrite <- app_assoc.
Qed.

Lemma split_go_piece (sep : code_unit) (cur p s : jsstring) :
  ~ In sep p ->
  split_go sep cur (p ++ sep :: s) = (rev cur ++ p) :: split_go sep [] s.
Proof.
  revert cur; induction p as [|c p IH]; intros cur Hp; simpl.
  - rewrite N.eqb_refl. now rewrite app_nil_r.
  - destruct (N.eqb c sep) eqn:E.
    + apply N.eqb_eq in E; subst c. exfalso. apply Hp. now left.
    + rewrite IH by (intros H; apply Hp; now right).
      simpl. now rewrite <- app_assoc.
Qed.

(** Splitting undoes joining, for one piece or more without the
    separator in them. *)
Lemma split_join (sep : code_unit) (p : jsstring) (ps : list jsstring) :
  Forall (fun q => ~ In sep q) (p :: ps) ->
  split (join sep (p :: ps)) sep = p :: ps.
Proof.
  unfold split. revert p; induction ps as [|q ps IH]; intros p H.
  - inversion H; subst. cbn [join]. now apply (split_go_last sep []).
  - inversion H as [|? ? Hp Hrest]; subst.
    rewrite join_cons. rewrite (split_go_piece sep [] p _ Hp). cbn [rev app].
    f_equal. now apply IH.
Qed.

(** An autofilled selection reads back as it was written: for one name or
    more from the list, the comma-joined string gives the same selection
    as the array itself. The empty selection does not: its string is
    empty, and comes back as a selection of one empty name. *)
Theorem autofill_reads_back (a : list jsstring) (st : AddExpense.State) :
  incl a AddExpense.names ->
  AddExpense.handleChange (AddExpense.AsString (join AddExpense.comma a)) st
  = match a with
    | [] => {| AddExpense.personName := [lit ""] |}
    | _ :: _ => AddExpense.handleChange (AddExpense.AsArray a) st
    end.
Proof.
  intros Hin. destruct a as [|p ps]; [reflexivity|].
  unfold AddExpense.handleChange. f_equal.
  apply split_join.
  apply Forall_forall. intros q Hq.
  pose proof names_comma_free as Hn. rewrite Forall_forall in Hn.
  apply Hn, Hin, Hq.
Qed.

(** Two names from the list, written as one string. *)
Lemma autofill_reads_back_witness :
  AddExpense.personName
    (AddExpense.handleChange (AddExpense.AsString (lit "April Tucker,Van Henry"))
       {| AddExpense.personName := [] |})
  = [lit "April Tucker"; lit "Van Henry"].
Proof.
  assert (H : incl [lit "April Tucker"; lit "Van Henry"] AddExpense.names).
  { intros q [<-|[<-|[]]]; cbn; auto 10. }
  exact (f_equal AddExpense.personName
           (autofill_reads_back [lit "April Tucker"; lit "Van Henry"]
              {| AddExpense.personName := [] |} H)).
Defined.

End ExpenseRowProperties.
